(** * IMDb Top 250 scraper: extraction, selection and normalisation

    A shallow embedding of [src/imdb_scraper.py] (class [IMDbTop250Scraper])
    and the properties its specification states about it.

    Conventions of the embedding.
    - A Python object is a [value]; a Python [dict] with string keys is a
      [gmap string value], so a scraped movie is a [gmap string value] with
      the keys [rank], [title], [year], [rating] and [url].
    - A Python computation that can raise is a [res]: [Ret v] for a normal
      result, [Raise e] for an exception.  Python floats are kept as the text
      they were read from; where an operation would need the numeric value of
      a float (truth value, ordering, hashing) the result is [Unmodelled],
      and no theorem draws a conclusion from it.
    - Text is ASCII: [\d] is [0-9] and [\s] is the ASCII part of Python's
      white space.
    - The parsed document (BeautifulSoup) is an [element]: the record of the
      answers it gives to the queries the scraper makes.
    - Library functions whose definition is outside the repository
      ([json.loads], [float], [urljoin], the network) are section variables;
      each says when the function raises. *)

From Stdlib Require Import ZArith String Ascii.
From stdpp Require Import gmap strings list fin_maps.

#[local] Set Warnings "-register-all".
#[local] Open Scope Z_scope.

(** ** Python values and exceptions *)

Inductive value : Type :=
  | VNone
  | VBool (b : bool)
  | VInt (n : Z)
  | VFloat (lit : string)
  | VStr (s : string)
  | VList (l : list value)
  | VDict (d : gmap string value).

Inductive exn : Type :=
  | TypeError
  | ValueError
  | KeyError
  | AttributeError.

Inductive res (A : Type) : Type :=
  | Ret (a : A)
  | Raise (e : exn)
  | Unmodelled.

Arguments Ret {A} a.
Arguments Raise {A} e.
Arguments Unmodelled {A}.

#[global] Instance res_bind : MBind res := fun A B f c =>
  match c with
  | Ret a => f a
  | Raise e => Raise e
  | Unmodelled => Unmodelled
  end.

(** [try: ... except Exception: handler]. *)
Definition try_except {A : Type} (body : res A) (handler : exn -> res A) : res A :=
  match body with
  | Raise e => handler e
  | other => other
  end.

(** A scraped movie: the dict built by every extractor. *)
Abbreviation movie := (gmap string value).

Definition mk_movie (rank title year rating url : value) : movie :=
  <["rank" := rank]> (<["title" := title]> (<["year" := year]>
    (<["rating" := rating]> (<["url" := url]> ∅)))).

(** ** Operations on values used by the normaliser *)

(** [bool(v)]. *)
Definition truthy (v : value) : res bool :=
  match v with
  | VNone => Ret false
  | VBool b => Ret b
  | VInt n => Ret (negb (n =? 0))
  | VFloat _ => Unmodelled
  | VStr s => Ret (negb (String.eqb s EmptyString))
  | VList l => Ret (match l with [] => false | _ => true end)
  | VDict d => Ret (negb (bool_decide (d = ∅)))
  end.

(** [v != "Unknown"]: only a [str] can be equal to a [str]. *)
Definition ne_unknown (v : value) : bool :=
  match v with
  | VStr s => negb (String.eqb s "Unknown")
  | _ => true
  end.

(** The identity of a hashable value as a member of a [set]: [True] and [1]
    are the same member; a [list] or a [dict] is unhashable. *)
Inductive hkey : Type :=
  | KNone
  | KInt (n : Z)
  | KStr (s : string).

#[global] Instance hkey_eq_dec : EqDecision hkey.
Proof. solve_decision. Defined.

Definition hash_key (v : value) : res hkey :=
  match v with
  | VNone => Ret KNone
  | VBool b => Ret (KInt (if b then 1 else 0))
  | VInt n => Ret (KInt n)
  | VStr s => Ret (KStr s)
  | VFloat _ => Unmodelled
  | VList _ | VDict _ => Raise TypeError
  end.

(** [a < b] between two sort keys. *)
Definition py_lt (a b : value) : res bool :=
  match a, b with
  | VInt x, VInt y => Ret (x <? y)
  | VInt x, VBool y => Ret (x <? (if y then 1 else 0))
  | VBool x, VInt y => Ret ((if x then 1 else 0) <? y)
  | VBool x, VBool y => Ret ((if x then 1 else 0) <? (if y then 1 else 0))
  | VStr x, VStr y => Ret (String.ltb x y)
  | VFloat _, (VFloat _ | VInt _ | VBool _) => Unmodelled
  | (VInt _ | VBool _), VFloat _ => Unmodelled
  | VList _, VList _ => Unmodelled
  | _, _ => Raise TypeError
  end.

(** ** The normalisation pass of [scrape_top250] *)

(** The condition of the cleaning loop,
    [movie and movie.get('title') and movie['title'] != "Unknown"
     and movie['title'] not in seen_titles];
    on success it also gives the member added to [seen_titles]. *)
Definition keep_movie (seen : list hkey) (m : movie) : res (option hkey) :=
  if bool_decide (m = ∅) then Ret None
  else match m !! "title" with
       | None => Ret None
       | Some t =>
           b ← truthy t;
           if negb b then Ret None
           else if negb (ne_unknown t) then Ret None
           else k ← hash_key t;
                Ret (if bool_decide (k ∈ seen) then None else Some k)
       end.

Fixpoint clean (seen : list hkey) (all_movies : list movie) : res (list movie) :=
  match all_movies with
  | [] => Ret []
  | m :: rest =>
      keep_movie seen m ≫= fun keep : option hkey =>
      match keep with
      | Some k => valid ← clean (k :: seen) rest; Ret (m :: valid)
      | None => clean seen rest
      end
  end.

(** [x.get('rank', 999)]. *)
Definition rank_key (m : movie) : value := default (VInt 999) (m !! "rank").

(** [valid_movies.sort(key=...)].  Python's sort is stable and compares keys
    with [<] only; whenever every comparison it makes succeeds its result is
    the stable ascending arrangement, which is what insertion from the right
    computes.  A sort of two or more items compares every item with some
    other one, so a key that cannot be compared makes both raise. *)
Fixpoint insert_by_rank (x : movie) (sorted : list movie) : res (list movie) :=
  match sorted with
  | [] => Ret [x]
  | y :: rest =>
      py_lt (rank_key y) (rank_key x) ≫= fun b : bool =>
      if b then (r ← insert_by_rank x rest; Ret (y :: r))
      else Ret (x :: y :: rest)
  end.

Fixpoint sort_by_rank (l : list movie) : res (list movie) :=
  match l with
  | [] => Ret []
  | x :: rest => s ← sort_by_rank rest; insert_by_rank x s
  end.

(** [enumerate(l, start)]. *)
Fixpoint enumerate {A : Type} (start : Z) (l : list A) : list (Z * A)%type :=
  match l with
  | [] => []
  | x :: rest => (start, x) :: enumerate (start + 1) rest
  end.

(** [for i, movie in enumerate(valid_movies, 1): movie['rank'] = i].
    After the cleaning loop no dict occurs twice in [valid_movies] (two
    occurrences would have the same title), so the in-place update of each
    dict is an update of that list element alone. *)
Definition rerank_from (start : Z) (l : list movie) : list movie :=
  (fun p : (Z * movie)%type => <["rank" := VInt p.1]> p.2) <$> enumerate start l.

Definition normalize (all_movies : list movie) : res (list movie) :=
  valid ← clean [] all_movies;
  sorted ← sort_by_rank valid;
  Ret (take 250 (rerank_from 1 sorted)).

(** ** Text and the regular expressions of the scraper *)

Definition is_digit (c : ascii) : bool :=
  ((48 <=? nat_of_ascii c) && (nat_of_ascii c <=? 57))%nat.

(** [\s] and the characters removed by [str.strip()]. *)
Definition is_space (c : ascii) : bool :=
  (((9 <=? nat_of_ascii c) && (nat_of_ascii c <=? 13))
   || ((28 <=? nat_of_ascii c) && (nat_of_ascii c <=? 32)))%nat.

Definition dquote : ascii := "034"%char.
Definition newline : ascii := "010"%char.

Fixpoint take_while (p : ascii -> bool) (s : string) : string :=
  match s with
  | EmptyString => EmptyString
  | String c rest => if p c then String c (take_while p rest) else EmptyString
  end.

Fixpoint drop_while (p : ascii -> bool) (s : string) : string :=
  match s with
  | EmptyString => EmptyString
  | String c rest => if p c then drop_while p rest else s
  end.

Fixpoint all_chars (p : ascii -> bool) (s : string) : bool :=
  match s with
  | EmptyString => true
  | String c rest => p c && all_chars p rest
  end.

(** [s.strip()]. *)
Definition strip (s : string) : string :=
  string_of_list_ascii (rev (list_ascii_of_string
    (drop_while is_space (string_of_list_ascii (rev (list_ascii_of_string
      (drop_while is_space s))))))).

(** [s.lower()] on ASCII text. *)
Definition lower_char (c : ascii) : ascii :=
  if ((65 <=? nat_of_ascii c) && (nat_of_ascii c <=? 90))%nat
  then ascii_of_nat (nat_of_ascii c + 32) else c.

Fixpoint lower (s : string) : string :=
  match s with
  | EmptyString => EmptyString
  | String c rest => String (lower_char c) (lower rest)
  end.

(** [s] without the prefix [p], when it starts with it. *)
Fixpoint strip_prefix (p s : string) : option string :=
  match p with
  | EmptyString => Some s
  | String a p' =>
      match s with
      | String b s' => if Ascii.eqb a b then strip_prefix p' s' else None
      | EmptyString => None
      end
  end.

(** [needle in s]. *)
Fixpoint contains (needle s : string) : bool :=
  match strip_prefix needle s with
  | Some _ => true
  | None => match s with
            | EmptyString => false
            | String _ rest => contains needle rest
            end
  end.

Definition digit_value (c : ascii) : Z := Z.of_nat (nat_of_ascii c) - 48.

Fixpoint int_of_digits (acc : Z) (s : string) : Z :=
  match s with
  | EmptyString => acc
  | String c rest => int_of_digits (10 * acc + digit_value c) rest
  end.

(** The most digits [int] accepts in a text: the default of
    [sys.get_int_max_str_digits()] (CPython 3.11, and the security releases
    of 3.7 to 3.10), which the program does not change. *)
Definition int_max_str_digits : Z := 4300.

(** [int(s)] for the strings the scraper passes to it, which are runs of
    digits matched by [\d]: a run of more than [int_max_str_digits] digits
    raises [ValueError], leading zeros included. *)
Definition py_int (s : string) : res Z :=
  match s with
  | EmptyString => Raise ValueError
  | _ =>
      if all_chars is_digit s && (Z.of_nat (String.length s) <=? int_max_str_digits)
      then Ret (int_of_digits 0 s) else Raise ValueError
  end.

(** [re.search(r'(\d+)', s)]: the first run of digits. *)
Definition search_digits (s : string) : option string :=
  match take_while is_digit (drop_while (fun c => negb (is_digit c)) s) with
  | EmptyString => None
  | d => Some d
  end.

(** Four digits at the start of [s], and what follows them. *)
Definition four_digits (s : string) : option (string * string) :=
  match s with
  | String a (String b (String c (String d rest))) =>
      if is_digit a && is_digit b && is_digit c && is_digit d
      then Some (String a (String b (String c (String d EmptyString))), rest)
      else None
  | _ => None
  end.

(** [re.search(r'(\d{4})', s)]: the leftmost four consecutive digits. *)
Fixpoint search_year (s : string) : option string :=
  match four_digits s with
  | Some (y, _) => Some y
  | None => match s with
            | EmptyString => None
            | String _ rest => search_year rest
            end
  end.

(** [re.search(r'\((\d{4})\)', s)]: the leftmost year in parentheses. *)
Fixpoint search_paren_year (s : string) : option string :=
  match s with
  | EmptyString => None
  | String c rest =>
      match (if Ascii.eqb c "("%char then four_digits rest else None) with
      | Some (y, String ")"%char _) => Some y
      | _ => search_paren_year rest
      end
  end.

(** [^\d+\.] at the start of [s]: the digits and what follows the dot. *)
Definition rank_prefix (s : string) : option (string * string) :=
  match take_while is_digit s, drop_while is_digit s with
  | String c d, String "."%char rest => Some (String c d, rest)
  | _, _ => None
  end.

(** Group 1 of [re.match] with the pattern [^\d+\.\s*] followed by the group
    [.*]: the rest of the line after the rank prefix ([.] stops at a newline). *)
Definition match_rank_title (s : string) : option string :=
  match rank_prefix s with
  | Some (_, rest) =>
      Some (take_while (fun c => negb (Ascii.eqb c newline)) (drop_while is_space rest))
  | None => None
  end.

(** [re.sub(r'^\d+\.\s*', '', s)]. *)
Definition sub_rank_prefix (s : string) : string :=
  match rank_prefix s with
  | Some (_, rest) => drop_while is_space rest
  | None => s
  end.

(** Group 1 of [re.search(r'^(\d+)\.', s)]. *)
Definition leading_rank (s : string) : option string :=
  match rank_prefix s with
  | Some (d, _) => Some d
  | None => None
  end.

(** [re.search(r'(\d+)\s*min', s)]: the digits of the leftmost match. *)
Fixpoint search_minutes (s : string) : option string :=
  match s with
  | EmptyString => None
  | String _ rest =>
      match take_while is_digit s with
      | EmptyString => search_minutes rest
      | d =>
          match strip_prefix "min" (drop_while is_space (drop_while is_digit s)) with
          | Some _ => Some d
          | None => search_minutes rest
          end
      end
  end.

(** [re.findall] for a pattern with one group that never matches the empty
    string: [m s] is the match of the pattern at the start of [s], as the
    group and the text after the match.  Matches do not overlap: after a
    match the scan resumes where it ended ([skip] counts the characters of
    the match still to pass). *)
Fixpoint findall_from (m : string -> option (string * string)) (skip : nat)
    (s : string) : list string :=
  match s with
  | EmptyString => []
  | String _ rest =>
      match skip with
      | S k => findall_from m k rest
      | O =>
          match m s with
          | Some (g, after) =>
              g :: findall_from m (String.length s - String.length after - 1) rest
          | None => findall_from m 0 rest
          end
      end
  end.

Definition findall (m : string -> option (string * string)) (s : string) : list string :=
  findall_from m 0 s.

(** The JSON key [key] in double quotes followed by [\s*:\s*], at the start
    of [s]: what follows it. *)
Definition match_key (key s : string) : option string :=
  match strip_prefix (String dquote (String.append key (String dquote EmptyString))) s with
  | Some r =>
      match drop_while is_space r with
      | String ":"%char r' => Some (drop_while is_space r')
      | _ => None
      end
  | None => None
  end.

(** A title pattern: the key [key], then a non-empty string literal without
    a double quote inside, which is the group. *)
Definition match_quoted (key s : string) : option (string * string) :=
  match match_key key s with
  | Some (String q r) =>
      if Ascii.eqb q dquote then
        match take_while (fun c => negb (Ascii.eqb c dquote)) r,
              drop_while (fun c => negb (Ascii.eqb c dquote)) r with
        | String c g, String _ after => Some (String c g, after)
        | _, _ => None
        end
      else None
  | _ => None
  end.

(** The year pattern: the key [releaseYear], then the group [\d{4}]. *)
Definition match_release_year (s : string) : option (string * string) :=
  match match_key "releaseYear" s with
  | Some r => four_digits r
  | None => None
  end.

(** [\d+\.?\d*] at the start of [s]. *)
Definition decimal_prefix (s : string) : option (string * string) :=
  match take_while is_digit s with
  | EmptyString => None
  | d =>
      match drop_while is_digit s with
      | String "."%char r =>
          Some (String.append d (String "."%char (take_while is_digit r)),
                drop_while is_digit r)
      | r => Some (d, r)
      end
  end.

(** The rating pattern: the key [ratingValue], then the group [\d+\.?\d*]. *)
Definition match_rating_value (s : string) : option (string * string) :=
  match match_key "ratingValue" s with
  | Some r => decimal_prefix r
  | None => None
  end.

(** ** The parsed document *)

(** The arguments of the [find] and [find_all] calls of the scraper. *)
Inductive query : Type :=
  | ByTag (tag : string)
  | ByClass (tag cls : string)
  | ByType (tag ty : string)
  | ByTitleHref (tag : string).

#[global] Instance query_eq_dec : EqDecision query.
Proof. solve_decision. Defined.

(** A tag of the parsed document (the document itself is one), as the
    answers it gives: [find_all] and [select] in document order, [get_text()],
    [get_text(strip=True)], [.string] and [.get(name)].  [ByTitleHref tag] is
    the query for [tag] with an [href] matching [/title/tt\d+/]. *)
Inductive element : Type := Element {
  find_all : query -> list element;
  select : string -> list element;
  get_text : string;
  get_text_strip : string;
  el_string : option string;
  attr : string -> option string
}.

Definition find (e : element) (q : query) : option element := head (find_all e q).
Definition select_one (e : element) (sel : string) : option element :=
  head (select e sel).

Definition base_url : string := "https://www.imdb.com".

(** A text between double quotes, for the attribute selectors. *)
Definition quoted (s : string) : string :=
  String dquote (String.append s (String dquote EmptyString)).

(** The selector for a link whose [href] contains [/title/tt]. *)
Definition title_link_selector : string :=
  String.append "a[href*=" (String.append (quoted "/title/tt") "]").

(** A loop over a list whose body updates a state and may raise. *)
Fixpoint for_each {A S : Type} (l : list A) (body : S -> A -> res S) (st : S) : res S :=
  match l with
  | [] => Ret st
  | x :: rest => body st x ≫= fun st' : S => for_each rest body st'
  end.

(** [if movie_data: movies.append(movie_data)]: [None] and the empty dict are
    false. *)
Definition append_if (movies : list movie) (movie_data : option movie) : list movie :=
  match movie_data with
  | Some m => if bool_decide (m = ∅) then movies else movies ++ [m]
  | None => movies
  end.

Definition len {A : Type} (l : list A) : Z := Z.of_nat (length l).

Section Scraper.

(** [urllib.parse.urljoin]; [None] is the [ValueError] it raises on an
    address it cannot split, such as one with an unmatched bracket in the
    host part. *)
Variable urljoin : string -> string -> option string.
(** Whether [float] accepts a text. *)
Variable float_ok : string -> bool.
(** [json.loads] on a text; [None] is [json.JSONDecodeError]. *)
Variable json_loads : string -> option value.

Definition py_float (s : string) : res value :=
  if float_ok s then Ret (VFloat s) else Raise ValueError.

(** [try: rating = float(text)] with [except ValueError: pass]. *)
Definition float_or_none (s : string) : res value :=
  try_except (py_float s)
    (fun e => match e with ValueError => Ret VNone | _ => Raise e end).

Definition int_value (digits : string) : res value :=
  n ← py_int digits; Ret (VInt n).

(** The year of an optional tag: the first four digits of its text. *)
Definition year_of (year_elem : option element) : res value :=
  match year_elem with
  | Some e =>
      match search_year (get_text_strip e) with
      | Some y => int_value y
      | None => Ret VNone
      end
  | None => Ret VNone
  end.

(** The first run of digits in the text of an optional cell, else [dflt]. *)
Definition rank_of (cell : option element) (dflt : value) : res value :=
  match cell with
  | Some c =>
      match search_digits (get_text_strip c) with
      | Some d => int_value d
      | None => Ret dflt
      end
  | None => Ret dflt
  end.

(** [urljoin(self.base_url, link['href'])] when the link exists and has a
    non-empty [href]. *)
Definition url_of (link : option element) : res value :=
  match link with
  | Some a =>
      match attr a "href" with
      | Some (String c h) =>
          match urljoin base_url (String c h) with
          | Some u => Ret (VStr u)
          | None => Raise ValueError
          end
      | _ => Ret VNone
      end
  | None => Ret VNone
  end.

Definition extract_from_classic_row (row : element) : res (option movie) :=
  try_except
    (rank ← rank_of (find row (ByClass "td" "ratingColumn")) VNone;
     match find row (ByClass "td" "titleColumn") with
     | None => Ret None
     | Some title_cell =>
         let title_link := find title_cell (ByTag "a") in
         let title := match title_link with
                      | Some a => get_text_strip a
                      | None => "Unknown"
                      end in
         year ← year_of (find title_cell (ByClass "span" "secondaryInfo"));
         rating ← match find row (ByClass "td" "ratingColumn") with
                  | Some rating_cell =>
                      match find rating_cell (ByTag "strong") with
                      | Some strong => float_or_none (get_text_strip strong)
                      | None => Ret VNone
                      end
                  | None => Ret VNone
                  end;
         movie_url ← url_of title_link;
         rank' ← match rank with
                 | VNone | VInt 0 =>
                     rank_of (find row (ByClass "td" "numberColumn")) rank
                 | _ => Ret rank
                 end;
         Ret (Some (mk_movie rank' (VStr title) year rating movie_url))
     end)
    (fun _ => Ret None).

Definition extract_from_container (container : element) (rank : Z)
    : res (option movie) :=
  try_except
    (let title :=
       match find container (ByClass "h3" "ipc-title__text") with
       | Some title_elem =>
           let title_text := get_text_strip title_elem in
           match match_rank_title title_text with
           | Some t => t
           | None => title_text
           end
       | None => "Unknown"
       end in
     year ← year_of (find container (ByClass "span" "cli-title-metadata-item"));
     rating ← match find container (ByClass "span" "ipc-rating-star--rating") with
              | Some rating_elem => float_or_none (get_text_strip rating_elem)
              | None => Ret VNone
              end;
     movie_url ← url_of (find container (ByClass "a" "ipc-title-link-wrapper"));
     Ret (Some (mk_movie (VInt rank) (VStr title) year rating movie_url)))
    (fun _ => Ret None).

(** [row.find('strong') or row.find('span', class_=...)]. *)
Definition rating_elem_of_row (row : element) : option element :=
  match find row (ByTag "strong") with
  | Some e => Some e
  | None => find row (ByClass "span" "ipc-rating-star--rating")
  end.

Definition is_movie_row (row : element) : bool :=
  let has_title_link := bool_decide (is_Some (find row (ByTitleHref "a"))) in
  let has_rating := bool_decide (is_Some (rating_elem_of_row row)) in
  let has_year := bool_decide (is_Some (search_paren_year (get_text row))) in
  has_title_link && (has_rating || has_year).

Definition extract_from_any_row (row : element) (rank : Z) : res (option movie) :=
  try_except
    (match find row (ByTitleHref "a") with
     | None => Ret None
     | Some title_link =>
         let title := get_text_strip title_link in
         year ← match search_paren_year (get_text row) with
                | Some y => int_value y
                | None => Ret VNone
                end;
         rating ← match rating_elem_of_row row with
                  | Some rating_elem => float_or_none (get_text_strip rating_elem)
                  | None => Ret VNone
                  end;
         movie_url ← url_of (Some title_link);
         Ret (Some (mk_movie (VInt rank) (VStr title) year rating movie_url))
     end)
    (fun _ => Ret None).

Definition extract_from_classic_page (soup : element) : res (list movie) :=
  try_except
    (movies ← match find soup (ByClass "tbody" "lister-list") with
              | Some tbody =>
                  for_each (find_all tbody (ByTag "tr"))
                    (fun movies row =>
                       movie_data ← extract_from_classic_row row;
                       Ret (append_if movies movie_data)) []
              | None => Ret []
              end;
     movies ← match movies with
              | [] =>
                  for_each
                    (enumerate 1 (find_all soup (ByClass "li" "ipc-metadata-list-summary-item")))
                    (fun movies ic =>
                       movie_data ← extract_from_container ic.2 ic.1;
                       Ret (append_if movies movie_data)) movies
              | _ => Ret movies
              end;
     match movies with
     | [] =>
         for_each (find_all soup (ByTag "tr"))
           (fun movies row =>
              if is_movie_row row then
                movie_data ← extract_from_any_row row (len movies + 1);
                Ret (append_if movies movie_data)
              else Ret movies) movies
     | _ => Ret movies
     end)
    (fun _ => Ret []).

(** *** The generic selector sweep *)

Definition title_selectors : list string :=
  ["h3.ipc-title__text"; "a.titleColumn"; "td.titleColumn a";
   title_link_selector; ".cli-title a"].

Definition year_selectors : list string :=
  [".cli-title-metadata-item"; ".secondaryInfo"; "span.secondaryInfo"].

Definition rating_selectors : list string :=
  [".ipc-rating-star--rating"; "strong"; ".ratingColumn strong"; ".cli-rating"].

(** The title loop: the first selector whose cleaned text has more than one
    character. *)
Fixpoint generic_title (e : element) (selectors : list string) : string :=
  match selectors with
  | [] => "Unknown"
  | sel :: rest =>
      match select_one e sel with
      | Some title_elem =>
          let title_clean := sub_rank_prefix (get_text_strip title_elem) in
          if (1 <? String.length title_clean)%nat then title_clean
          else generic_title e rest
      | None => generic_title e rest
      end
  end.

Fixpoint generic_year (e : element) (selectors : list string) : res value :=
  match selectors with
  | [] => Ret VNone
  | sel :: rest =>
      match select_one e sel with
      | Some year_elem =>
          match search_year (get_text_strip year_elem) with
          | Some y => int_value y
          | None => generic_year e rest
          end
      | None => generic_year e rest
      end
  end.

Fixpoint generic_rating (e : element) (selectors : list string) : res value :=
  match selectors with
  | [] => Ret VNone
  | sel :: rest =>
      match select_one e sel with
      | Some rating_elem =>
          try_except (py_float (get_text_strip rating_elem))
            (fun x => match x with
                      | ValueError => generic_rating e rest
                      | _ => Raise x
                      end)
      | None => generic_rating e rest
      end
  end.

Definition extract_movie_data_generic (e : element) (rank : Z) : res (option movie) :=
  try_except
    (let title := generic_title e title_selectors in
     year ← generic_year e year_selectors;
     rating ← generic_rating e rating_selectors;
     movie_url ← url_of (select_one e title_link_selector);
     extracted_rank ← match leading_rank (strip (get_text e)) with
                      | Some d => int_value d
                      | None => Ret (VInt rank)
                      end;
     Ret (Some (mk_movie extracted_rank (VStr title) year rating movie_url)))
    (fun _ => Ret None).

Definition sweep_selectors : list string :=
  ["li.ipc-metadata-list-summary-item"; "tr[data-testid]"; "li.titleColumn";
   ".lister-item"; ".cli-item"].

(** [if movie_data and movie_data['title'] != "Unknown": movies.append(...)]. *)
Definition append_if_titled (movies : list movie) (movie_data : option movie)
    : res (list movie) :=
  match movie_data with
  | Some m =>
      if bool_decide (m = ∅) then Ret movies
      else match m !! "title" with
           | Some t => Ret (if ne_unknown t then movies ++ [m] else movies)
           | None => Raise KeyError
           end
  | None => Ret movies
  end.

(** The loop over the selectors; [movies] is the list built so far, which
    the loop never empties. *)
Fixpoint sweep (soup : element) (movies : list movie) (selectors : list string)
    : res (list movie) :=
  match selectors with
  | [] => Ret movies
  | sel :: rest =>
      match select soup sel with
      | [] => sweep soup movies rest
      | elements =>
          for_each (enumerate 1 elements)
            (fun movies ie =>
               movie_data ← extract_movie_data_generic ie.2 ie.1;
               append_if_titled movies movie_data) movies
          ≫= fun movies' : list movie =>
          if 50 <? len movies' then Ret movies' else sweep soup movies' rest
      end
  end.

Definition parse_html_for_movies (soup : element) : res (list movie) :=
  try_except (sweep soup [] sweep_selectors) (fun _ => Ret []).

(** *** The embedded-script hypothesis *)

Definition title_keys : list string := ["titleText"; "primaryText"; "title"].

(** [titles[:250]] paired with [years] and [ratings] by position. *)
Definition embedded_movie (years ratings : list string) (movies : list movie)
    (it : Z * string) : res (list movie) :=
  year ← match years !! Z.to_nat it.1 with
         | Some y => int_value y
         | None => Ret VNone
         end;
  rating ← match ratings !! Z.to_nat it.1 with
           | Some r => py_float r
           | None => Ret VNone
           end;
  Ret (movies ++ [mk_movie (VInt (it.1 + 1)) (VStr it.2) year rating VNone]).

Fixpoint embedded_patterns (script_content : string) (movies : list movie)
    (keys : list string) : res (list movie) :=
  match keys with
  | [] => Ret movies
  | key :: rest =>
      let titles := findall (match_quoted key) script_content in
      if 50 <? len titles then
        let years := findall match_release_year script_content in
        let ratings := findall match_rating_value script_content in
        for_each (enumerate 0 (take 250 titles))
          (embedded_movie years ratings) movies
        ≫= fun movies' : list movie =>
        match movies' with
        | [] => embedded_patterns script_content movies' rest
        | _ => Ret movies'
        end
      else embedded_patterns script_content movies rest
  end.

Definition extract_from_embedded_json (script_content : string) : res (list movie) :=
  try_except (embedded_patterns script_content [] title_keys) (fun _ => Ret []).

(** *** The structured-data hypothesis and the page parser *)

(** The items of [for item in v]. A dict gives its keys; their order plays
    no part below, where a key either is passed over or raises. *)
Definition iterate (v : value) : res (list value) :=
  match v with
  | VList l => Ret l
  | VStr s => Ret ((fun c => VStr (String c EmptyString)) <$> list_ascii_of_string s)
  | VDict d => Ret ((fun kv : string * value => VStr kv.1) <$> map_to_list d)
  | _ => Raise TypeError
  end.

(** ['item' in v]. *)
Definition has_item (v : value) : res bool :=
  match v with
  | VDict d => Ret (bool_decide (is_Some (d !! "item")))
  | VStr s => Ret (contains "item" s)
  | VList l =>
      Ret (existsb (fun x => match x with
                             | VStr s => String.eqb s "item"
                             | _ => false
                             end) l)
  | _ => Raise TypeError
  end.

(** One entry of [itemListElement]. *)
Definition ld_item (movies : list movie) (item : value) : res (list movie) :=
  has_item item ≫= fun present : bool =>
  if present then
    match item with
    | VDict entry =>
        match entry !! "item" with
        | Some (VDict movie_info) =>
            let rank := default (VInt (len movies + 1)) (entry !! "position") in
            let title := default (VStr "Unknown") (movie_info !! "name") in
            rating ← match default (VDict ∅) (movie_info !! "aggregateRating") with
                     | VDict agg => Ret (default VNone (agg !! "ratingValue"))
                     | _ => Raise AttributeError
                     end;
            let url := default VNone (movie_info !! "url") in
            year ← match movie_info !! "datePublished" with
                   | Some (VStr date) =>
                       match search_year date with
                       | Some y => int_value y
                       | None => Ret VNone
                       end
                   | Some _ => Raise TypeError
                   | None => Ret VNone
                   end;
            Ret (movies ++ [mk_movie rank title year rating url])
        | Some _ => Raise AttributeError
        | None => Raise KeyError
        end
    | _ => Raise TypeError
    end
  else Ret movies.

(** The body of the loop over the structured-data scripts, for parsed
    [data]. *)
Definition ld_block (movies : list movie) (data : value) : res (list movie) :=
  match data with
  | VDict d =>
      match d !! "itemListElement" with
      | Some items => l ← iterate items; for_each l ld_item movies
      | None => Ret movies
      end
  | _ => Ret movies
  end.

(** The loop over the structured-data scripts: [inl] is the list returned
    from inside the loop, [inr] the list built when the loop ends. *)
Fixpoint ld_scripts (movies : list movie) (scripts : list element)
    : res (list movie + list movie) :=
  match scripts with
  | [] => Ret (inr movies)
  | script :: rest =>
      match el_string script with
      | None => Raise TypeError
      | Some text =>
          match json_loads text with
          | None => ld_scripts movies rest
          | Some data =>
              ld_block movies data ≫= fun movies' : list movie =>
              if 100 <=? len movies' then Ret (inl movies')
              else ld_scripts movies' rest
          end
      end
  end.

(** The condition and the body of the loop over all script tags. *)
Definition embedded_script (movies : list movie) (script : element)
    : res (list movie) :=
  match el_string script with
  | Some (String c s) =>
      let text := String c s in
      if contains "titleText" text || contains "movies" (lower text) then
        json_movies ← extract_from_embedded_json text;
        Ret (if len movies <? len json_movies then json_movies else movies)
      else Ret movies
  | _ => Ret movies
  end.

Definition extract_movies_from_any_page (soup : element) : res (list movie) :=
  try_except
    (ld_scripts [] (find_all soup (ByType "script" "application/ld+json"))
     ≫= fun r : list movie + list movie =>
     match r with
     | inl movies => Ret movies
     | inr movies =>
         movies ← for_each (find_all soup (ByTag "script")) embedded_script movies;
         if len movies <? 100 then
           html_movies ← parse_html_for_movies soup;
           Ret (if len movies <? len html_movies then html_movies else movies)
         else Ret movies
     end)
    (fun _ => Ret []).

(** *** The orchestrator *)

(** The state of the network. The three stages fetch pages and return a
    candidate list; each catches its own exceptions. *)
Variable world : Type.
Variable try_classic_imdb_page : world -> list movie * world.
Variable try_paginated_requests : world -> list movie * world.
Variable try_mobile_and_alternative_endpoints : world -> list movie * world.

(** The stage part of [scrape_top250]: the working list [all_movies] when
    the stages are over. *)
Definition select_candidates (w : world) : list movie * world :=
  let all_movies : list movie := [] in
  let '(classic_movies, w) := try_classic_imdb_page w in
  let all_movies :=
    if len all_movies <? len classic_movies then classic_movies else all_movies in
  let '(all_movies, w) :=
    if len all_movies <? 200 then
      let '(paginated_movies, w) := try_paginated_requests w in
      (if len all_movies <? len paginated_movies then paginated_movies else all_movies,
       w)
    else (all_movies, w) in
  let '(all_movies, w) :=
    if len all_movies <? 200 then
      let '(alt_movies, w) := try_mobile_and_alternative_endpoints w in
      (if len all_movies <? len alt_movies then alt_movies else all_movies, w)
    else (all_movies, w) in
  (all_movies, w).

Definition scrape_top250 (w : world) : res (list movie) * world :=
  let '(all_movies, w) := select_candidates w in
  (normalize all_movies, w).

(** *** The detail page *)

(** One [self.session.get(url, timeout=15)] followed by
    [response.raise_for_status()]: the parsed content of the response, or
    [None] when either raises [requests.RequestException]. *)
Variable session_get : string -> world -> option element * world.

(** The loop of [get_page_with_retries] with [retries] attempts left (the
    pauses between attempts are not part of the model). *)
Fixpoint get_page_attempts (retries : nat) (url : string) (w : world)
    : option element * world :=
  match retries with
  | O => (None, w)
  | S k =>
      let '(response, w) := session_get url w in
      match response with
      | Some page => (Some page, w)
      | None => get_page_attempts k url w
      end
  end.

Definition get_page_with_retries (url : string) (w : world) : option element * world :=
  get_page_attempts 3 url w.

Definition director_selectors : list string :=
  [String.append "a[class*="
     (String.append (quoted "ipc-metadata-list-item__list-content-item--link") "]");
   ".credit_summary_item a";
   String.append "[data-testid="
     (String.append (quoted "title-pc-principal-credit") "] a")].

Definition genre_selectors : list string :=
  [String.append "[data-testid=" (String.append (quoted "genres") "] a");
   String.append ".see-more.inline a[href*=" (String.append (quoted "genre") "]");
   String.append ".subtext a[href*=" (String.append (quoted "genre") "]")].

Fixpoint first_director (soup : element) (selectors : list string) : string :=
  match selectors with
  | [] => "Unknown"
  | sel :: rest =>
      match select_one soup sel with
      | Some director_elem => get_text_strip director_elem
      | None => first_director soup rest
      end
  end.

Fixpoint first_genres (soup : element) (selectors : list string) : list string :=
  match selectors with
  | [] => []
  | sel :: rest =>
      match select soup sel with
      | [] => first_genres soup rest
      | genre_elems => get_text_strip <$> take 3 genre_elems
      end
  end.

(** [', '.join(l)]. *)
Fixpoint join_comma (l : list string) : string :=
  match l with
  | [] => EmptyString
  | [x] => x
  | x :: rest => String.append x (String.append ", " (join_comma rest))
  end.

Definition detail_record (director runtime genres : value) : gmap string value :=
  <["director" := director]> (<["runtime_minutes" := runtime]>
    (<["genres" := genres]> ∅)).

Definition unknown_details : gmap string value :=
  detail_record (VStr "Unknown") VNone (VStr "Unknown").

Definition get_additional_details (movie_url : string) (w : world)
    : res (gmap string value) * world :=
  let '(response, w) := get_page_with_retries movie_url w in
  (try_except
     (match response with
      | None => Ret unknown_details
      | Some soup =>
          let director := first_director soup director_selectors in
          runtime ← match search_minutes (get_text soup) with
                    | Some d => int_value d
                    | None => Ret VNone
                    end;
          let genres := first_genres soup genre_selectors in
          Ret (detail_record (VStr director) runtime
                 (VStr (match genres with
                        | [] => "Unknown"
                        | _ => join_comma genres
                        end)))
      end)
     (fun _ => Ret unknown_details), w).

(** *** The stages as the source defines them *)

(** The names [try_classic_imdb_page], [try_paginated_requests] and
    [try_mobile_and_alternative_endpoints] stand above for any stage the
    orchestrator may be run with; the methods of the source carry the same
    names with a prime.  The pauses between requests are not part of the
    model. *)

(** A call of [self.session.get] that is not followed by
    [raise_for_status]: the address, the query parameters, and whether the
    mobile headers are sent. *)
Record request : Type := Request {
  req_url : string;
  req_params : list (string * Z);
  req_mobile : bool
}.

(** Its outcome: [inl e] when the call raises (which exception it is plays
    no part: every handler around these calls catches all of them), else the
    status code of the response and its parsed content. *)
Variable http_get : request -> world -> (exn + Z * element) * world.

(** [response.status_code] of the response a page returned by
    [get_page_with_retries] was parsed from. *)
Variable status_code : element -> Z.

Definition classic_urls : list string :=
  ["https://www.imdb.com/chart/top/?view=simple";
   "https://www.imdb.com/chart/top/?sort=ir,desc&mode=simple&page=1";
   "https://www.imdb.com/chart/top"].

(** The loop of [try_classic_imdb_page] over the addresses left. *)
Fixpoint classic_variants (urls : list string) (w : world) : res (list movie) * world :=
  match urls with
  | [] => (Ret [], w)
  | url :: rest =>
      let '(response, w) := get_page_with_retries url w in
      match response with
      | Some soup =>
          match extract_from_classic_page soup with
          | Ret movies =>
              if 50 <? len movies then (Ret movies, w) else classic_variants rest w
          | Raise e => (Raise e, w)
          | Unmodelled => (Unmodelled, w)
          end
      | None => classic_variants rest w
      end
  end.

Definition try_classic_imdb_page' (w : world) : res (list movie) * world :=
  let '(r, w) := classic_variants classic_urls w in
  (try_except r (fun _ => Ret []), w).

Definition base_params : list (list (string * Z)) :=
  [[("start", 1); ("count", 250)];
   [("page", 1); ("per_page", 250)];
   [("offset", 0); ("limit", 250)]].

(** [if len(page_movies) > len(movies): movies = page_movies]. *)
Definition longer (movies page_movies : list movie) : list movie :=
  if len movies <? len page_movies then page_movies else movies.

(** The loop of [try_paginated_requests] over the parameter sets left. *)
Fixpoint paginated_variants (params : list (list (string * Z))) (movies : list movie)
    (w : world) : res (list movie) * world :=
  match params with
  | [] => (Ret movies, w)
  | p :: rest =>
      let '(response, w) :=
        http_get (Request "https://www.imdb.com/chart/top/" p false) w in
      match response with
      | inl e => (Raise e, w)
      | inr (status, soup) =>
          if status =? 200 then
            match extract_from_classic_page soup with
            | Ret page_movies => paginated_variants rest (longer movies page_movies) w
            | Raise e => (Raise e, w)
            | Unmodelled => (Unmodelled, w)
            end
          else paginated_variants rest movies w
      end
  end.

Definition try_paginated_requests' (w : world) : res (list movie) * world :=
  let '(r, w) := paginated_variants base_params [] w in
  (try_except r (fun _ => Ret []), w).

Definition endpoints : list string :=
  ["https://m.imdb.com/chart/top/";
   "https://www.imdb.com/chart/top/?ref_=nv_mv_250_6";
   "https://www.imdb.com/chart/top/?view=simple";
   "https://www.imdb.com/search/title/?groups=top_250&sort=user_rating,desc"].

(** The request of one endpoint: [inl e] when the call raises, else the page
    when there is a response with status code 200. *)
Definition endpoint_page (url : string) (w : world) : (exn + option element) * world :=
  if contains "m.imdb.com" url then
    let '(response, w) := http_get (Request url [] true) w in
    match response with
    | inl e => (inl e, w)
    | inr (status, soup) => (inr (if status =? 200 then Some soup else None), w)
    end
  else
    let '(response, w) := get_page_with_retries url w in
    match response with
    | Some soup => (inr (if status_code soup =? 200 then Some soup else None), w)
    | None => (inr None, w)
    end.

(** The loop of [try_mobile_and_alternative_endpoints] over the endpoints
    left. *)
Fixpoint endpoint_variants (urls : list string) (movies : list movie) (w : world)
    : res (list movie) * world :=
  match urls with
  | [] => (Ret movies, w)
  | url :: rest =>
      let '(page, w) := endpoint_page url w in
      match page with
      | inl e => (Raise e, w)
      | inr None => endpoint_variants rest movies w
      | inr (Some soup) =>
          match extract_movies_from_any_page soup with
          | Ret endpoint_movies =>
              endpoint_variants rest (longer movies endpoint_movies) w
          | Raise e => (Raise e, w)
          | Unmodelled => (Unmodelled, w)
          end
      end
  end.

Definition try_mobile_and_alternative_endpoints' (w : world) : res (list movie) * world :=
  let '(r, w) := endpoint_variants endpoints [] w in
  (try_except r (fun _ => Ret []), w).

(** A stage as the orchestrator uses it, which is with the list it returns. *)
Definition as_stage (stage : world -> res (list movie) * world) (w : world)
    : list movie * world :=
  let '(r, w) := stage w in
  (match r with Ret movies => movies | _ => [] end, w).


(** ** Notions used to state the properties *)

(** The member of [seen_titles] a movie stands for, when it has one. *)
Definition title_key (m : movie) : option hkey :=
  match m !! "title" with
  | Some t => match hash_key t with Ret k => Some k | _ => None end
  | None => None
  end.

(** [named m]: the movie passes the condition of the cleaning loop when no
    title has been seen yet. *)
Definition named (m : movie) : Prop := exists k, keep_movie [] m = Ret (Some k).

(** [ranked_from start l]: the ranks of [l] are [start], [start + 1], ... *)
Definition ranked_from (start : Z) (l : list movie) : Prop :=
  forall i m, l !! i = Some m -> m !! "rank" = Some (VInt (start + Z.of_nat i)).

(** A movie whose title is missing, [None] or a text, and whose sort key is
    an integer: what the extractors for markup build when a rank was found. *)
Definition plain_fields (m : movie) : Prop :=
  (m !! "title" = None \/ m !! "title" = Some VNone \/
   exists s, m !! "title" = Some (VStr s)) /\
  exists n, rank_key m = VInt n.

(** [first_longest ls c]: [c] is one of the lists of [ls], none of them is
    longer, and every list before it in [ls] is strictly shorter. *)
Definition first_longest (ls : list (list movie)) (c : list movie) : Prop :=
  exists i, ls !! i = Some c /\
    (forall j c', ls !! j = Some c' -> (length c' <= length c)%nat) /\
    (forall j c', ls !! j = Some c' -> (j < i)%nat -> (length c' < length c)%nat).

(** The titles the embedded-script hypothesis works with: the matches of the
    first title pattern that has more than 50 of them. *)
Definition matched_titles (script_content : string) : option (list string) :=
  head (filter (fun titles : list string => (50 < length titles)%nat)
          ((fun key => findall (match_quoted key) script_content) <$> title_keys)).

(** What the pairing loop appends for the title at position [i]. *)
Definition embedded_item (years ratings : list string) (i : Z) (t : string)
    (m : movie) : Prop :=
  exists y r, m = mk_movie (VInt (i + 1)) (VStr t) y r VNone /\
    (years !! Z.to_nat i = None -> y = VNone) /\
    (ratings !! Z.to_nat i = None -> r = VNone).

(** The rows of the classic table, when the page has one. *)
Definition classic_rows (soup : element) : list element :=
  match find soup (ByClass "tbody" "lister-list") with
  | Some tbody => find_all tbody (ByTag "tr")
  | None => []
  end.

(** *** Example documents *)

(** A tag with a text and nothing inside. *)
Definition leaf (text : string) : element :=
  Element (fun _ => []) (fun _ => []) text text None (fun _ => None).

(** A card whose only content is a title heading with the text [title]. *)
Definition card (title : string) : element :=
  Element
    (fun q => if bool_decide (q = ByClass "h3" "ipc-title__text")
              then [leaf title] else [])
    (fun sel => if String.eqb sel "h3.ipc-title__text" then [leaf title] else [])
    title title None (fun _ => None).

(** A page on which the first selector of the sweep finds 10 cards and the
    second one 60. *)
Definition sweep_page : element :=
  Element (fun _ => [])
    (fun sel =>
       if String.eqb sel "li.ipc-metadata-list-summary-item"
       then replicate 10 (card "Alien")
       else if String.eqb sel "tr[data-testid]"
       then replicate 60 (card "Brazil")
       else [])
    EmptyString EmptyString None (fun _ => None).

(** The movie extracted from a card without year, rating and link. *)
Definition plain_movie (title : string) (rank : Z) : movie :=
  mk_movie (VInt rank) (VStr title) VNone VNone VNone.

(** A modern page with one card whose heading carries the rank prefix 7. *)
Definition prefixed_card_page : element :=
  Element
    (fun q => if bool_decide (q = ByClass "li" "ipc-metadata-list-summary-item")
              then [card "7. The Godfather"] else [])
    (fun _ => []) EmptyString EmptyString None (fun _ => None).


(** A list entry for a movie called [name]. *)
Definition named_entry (name : string) : value :=
  VDict (<["position" := VInt 1]>
           (<["item" := VDict (<["name" := VStr name]> ∅)]> ∅)).

(** A parsed structured-data block with the list entries [entries]. *)
Definition item_list (entries : list value) : value :=
  VDict (<["itemListElement" := VList entries]> ∅).

(** A script tag with the text [text]. *)
Definition script_tag (text : string) : element :=
  Element (fun _ => []) (fun _ => []) text text (Some text) (fun _ => None).

(** A page whose only script is one structured-data script with the text
    [text]. *)
Definition ld_page (text : string) : element :=
  Element
    (fun q => if bool_decide (q = ByType "script" "application/ld+json")
                 || bool_decide (q = ByTag "script")
              then [script_tag text] else [])
    (fun _ => []) EmptyString EmptyString None (fun _ => None).


(** *** Example inputs *)

(** A candidate list with a duplicate title, a placeholder and ranks out of
    order. *)
Definition sample_candidates : list movie :=
  [ plain_movie "Heat" 3; plain_movie "Alien" 1; plain_movie "Unknown" 2;
    plain_movie "Heat" 4; plain_movie "Brazil" 2 ].

Definition sample_normalized : list movie :=
  [ plain_movie "Alien" 1; plain_movie "Brazil" 2; plain_movie "Heat" 3 ].

(** [n] copies of a text, one after the other. *)
Fixpoint repeat_text (n : nat) (s : string) : string :=
  match n with
  | O => EmptyString
  | S k => String.append s (repeat_text k s)
  end.

(** A script text with 60 matches of the first title pattern, of which the
    first 55 are followed by a release year, and no rating. *)
Definition sample_script : string :=
  String.append
    (repeat_text 55
       (String.append (quoted "titleText")
          (String.append ":"
             (String.append (quoted "Heat")
                (String.append ","
                   (String.append (quoted "releaseYear") ":1995,"))))))
    (repeat_text 5
       (String.append (quoted "titleText")
          (String.append ": " (String.append (quoted "Ran") ",")))).

(** Stages that return 120, 80 and no movies, on a network without state. *)
Definition stage_of (n : nat) (w : unit) : list movie * unit :=
  (replicate n (plain_movie "Heat" 1), w).

(** The movies the embedded-script hypothesis extracts from [sample_script]. *)
Definition sample_script_movies : list movie :=
  ((fun i => mk_movie (VInt i) (VStr "Heat") (VInt 1995) VNone VNone) <$> seqZ 1 55)
  ++ (plain_movie "Ran" <$> seqZ 56 5).

(** A network on which every page is a tag with the text [text]. *)
Definition fetch_leaf (text : string) (url : string) (w : unit) : option element * unit :=
  (Some (leaf text), w).

(** Library functions for the examples: links are kept as they are and
    [float] accepts every text. *)
Definition keep_href (base href : string) : option string := Some href.
Definition any_float (s : string) : bool := true.

(** A row of the classic table: a title cell with a link, and a rating cell
    with the text [rating_text] when there is one. *)
Definition classic_row (rating_text : option string) (title : string) : element :=
  Element
    (fun q =>
       if bool_decide (q = ByClass "td" "titleColumn") then
         [Element (fun q' => if bool_decide (q' = ByTag "a") then [leaf title] else [])
            (fun _ => []) title title None (fun _ => None)]
       else if bool_decide (q = ByClass "td" "ratingColumn") then
         match rating_text with
         | Some r => [leaf r]
         | None => []
         end
       else [])
    (fun _ => []) title title None (fun _ => None).

(** A classic page with two rows, of which the first has no rank. *)
Definition unranked_page : element :=
  Element
    (fun q =>
       if bool_decide (q = ByClass "tbody" "lister-list") then
         [Element
            (fun q' => if bool_decide (q' = ByTag "tr")
                       then [classic_row None "Casablanca"; classic_row (Some "8") "Vertigo"]
                       else [])
            (fun _ => []) EmptyString EmptyString None (fun _ => None)]
       else [])
    (fun _ => []) EmptyString EmptyString None (fun _ => None).

(** The candidate list [extract_from_classic_page] builds from it. *)
Definition unranked_then_ranked : list movie :=
  [ mk_movie VNone (VStr "Casablanca") VNone VNone VNone;
    mk_movie (VInt 8) (VStr "Vertigo") VNone VNone VNone ].

(** *** Notions for the further properties *)

(** [first_with_title l s]: [s] is a movie of [l], and no movie before it in
    [l] has its title. *)
Definition first_with_title (l : list movie) (s : movie) : Prop :=
  exists j, l !! j = Some s /\
    forall j' s', (j' < j)%nat -> l !! j' = Some s' -> s' !! "title" ≠ s !! "title".

(** The sort keys of [a] and [b] are integers, and that of [a] is not above
    that of [b]. *)
Definition rank_le (a b : movie) : Prop :=
  exists n n', rank_key a = VInt n /\ rank_key b = VInt n' /\ n <= n'.

(** The sort key is [None] or an integer. *)
Definition none_or_int_rank (m : movie) : Prop :=
  rank_key m = VNone \/ exists n, rank_key m = VInt n.

(** A movie as the extractors for markup build it: the five keys, a text as
    title, and each other field [None] or of its type. *)
Definition scraped (m : movie) : Prop :=
  exists rank title year rating url,
    m = mk_movie rank (VStr title) year rating url /\
    (rank = VNone \/ exists n, rank = VInt n) /\
    (year = VNone \/ exists n, year = VInt n) /\
    (rating = VNone \/ exists lit, rating = VFloat lit) /\
    (url = VNone \/ exists u, url = VStr u).

(** [int] refuses a run of digits: it is longer than [int_max_str_digits]. *)
Definition int_refuses (d : string) : bool :=
  int_max_str_digits <? Z.of_nat (String.length d).

(** The first run of digits in the text of the optional cell is one that
    [int] refuses. *)
Definition digits_refused (cell : option element) : bool :=
  match cell with
  | Some c =>
      match search_digits (get_text_strip c) with
      | Some d => int_refuses d
      | None => false
      end
  | None => false
  end.

(** The optional cell gives no rank, or the rank 0: the first run of digits
    in its text is missing or stands for 0. *)
Definition rank_missing (cell : option element) : bool :=
  match cell with
  | Some c =>
      match search_digits (get_text_strip c) with
      | Some d => int_of_digits 0 d =? 0
      | None => true
      end
  | None => true
  end.

(** [urljoin] accepts the [href] of the optional link, or there is no link
    or no [href] to join. *)
Definition href_accepted (link : option element) : bool :=
  match link with
  | Some a =>
      match attr a "href" with
      | Some (String c h) => bool_decide (is_Some (urljoin base_url (String c h)))
      | _ => true
      end
  | None => true
  end.

(** A row of the classic table with a number cell, a title cell with a link,
    and a rating cell with a highlighted rating. *)
Definition numbered_row (number rating title : string) : element :=
  Element
    (fun q =>
       if bool_decide (q = ByClass "td" "titleColumn") then
         [Element (fun q' => if bool_decide (q' = ByTag "a") then [leaf title] else [])
            (fun _ => []) title title None (fun _ => None)]
       else if bool_decide (q = ByClass "td" "ratingColumn") then
         [Element (fun q' => if bool_decide (q' = ByTag "strong") then [leaf rating] else [])
            (fun _ => []) rating rating None (fun _ => None)]
       else if bool_decide (q = ByClass "td" "numberColumn") then [leaf number]
       else [])
    (fun _ => []) title title None (fun _ => None).

(** A movie as the selector sweep keeps it: the five fields, an integer rank,
    and a title that is not "Unknown" and has at least two characters. *)
Definition titled (m : movie) : Prop :=
  scraped m /\
  (exists n, m !! "rank" = Some (VInt n)) /\
  exists t, m !! "title" = Some (VStr t) /\ t ≠ "Unknown" /\
            (2 <= String.length t)%nat.

(** *** Example inputs for the further properties *)

(** [urljoin] for the examples with a refused address: it raises on an
    address that starts a host part with an open bracket, and keeps any
    other as it is. *)
Definition strict_href (base href : string) : option string :=
  match strip_prefix "//[" href with
  | Some _ => None
  | None => Some href
  end.

(** A link with the text [title] and the address [href]. *)
Definition title_link (title href : string) : element :=
  Element (fun _ => []) (fun _ => []) title title None
    (fun name => if String.eqb name "href" then Some href else None).

(** A table row with a title link and the year in parentheses in its text. *)
Definition film_row (title year href : string) : element :=
  Element
    (fun q => if bool_decide (q = ByTitleHref "a") then [title_link title href] else [])
    (fun _ => [])
    (title +:+ " (" +:+ year +:+ ")") (title +:+ " (" +:+ year +:+ ")")
    None (fun _ => None).

(** A page without classic table and without cards whose rows are a heading,
    a film, a film whose link has an address that [urljoin] refuses, an
    advertisement and another film. *)
Definition plain_rows_page : element :=
  Element
    (fun q => if bool_decide (q = ByTag "tr")
              then [leaf "Rank Title";
                    film_row "Heat" "1995" "/title/tt0113277/";
                    film_row "Alien" "1979" "//[/title/tt0078748/";
                    leaf "Advertisement";
                    film_row "Ran" "1985" "/title/tt0089881/"]
              else [])
    (fun _ => []) EmptyString EmptyString None (fun _ => None).

(** A card with a title heading and a title link. *)
Definition linked_card (title href : string) : element :=
  Element
    (fun q => if bool_decide (q = ByClass "h3" "ipc-title__text") then [leaf title]
              else if bool_decide (q = ByClass "a" "ipc-title-link-wrapper")
              then [title_link title href] else [])
    (fun _ => []) title title None (fun _ => None).

(** A modern page with three cards: [urljoin] refuses the address of the
    second, and the heading of the third carries the prefix 9. *)
Definition three_cards_page : element :=
  Element
    (fun q => if bool_decide (q = ByClass "li" "ipc-metadata-list-summary-item")
              then [linked_card "1. Heat" "/title/tt0113277/";
                    linked_card "2. Alien" "//[/title/tt0078748/";
                    linked_card "9. Ran" "/title/tt0089881/"]
              else [])
    (fun _ => []) EmptyString EmptyString None (fun _ => None).

(** A page with the cards of [sweep_page] and two structured-data script
    tags, of which the second has no text. *)
Definition textless_script_page : element :=
  Element
    (fun q => if bool_decide (q = ByType "script" "application/ld+json")
              then [script_tag "ld"; leaf EmptyString] else [])
    (select sweep_page) EmptyString EmptyString None (fun _ => None).


(** Two list entries, of which the second gives its [item] as a link. *)
Definition entries_with_link_item : list value :=
  [named_entry "Heat"; VDict (<["item" := VStr "/title/tt0113277/"]> ∅)].

(** A script with exactly 50 titles. *)
Definition fifty_titles : string :=
  repeat_text 50 (quoted "titleText" +:+ ":" +:+ quoted "Heat" +:+ ",").

(** A server that fails twice and answers from the third request on; the
    state counts the requests. *)
Definition flaky_get (url : string) (w : nat) : option element * nat :=
  (if (w <? 2)%nat then None else Some (leaf "A film."), S w).

(** A server that never answers. *)
Definition no_answer (url : string) (w : unit) : option element * unit := (None, w).

(** Requests of which the first two are answered with a page of one card and
    the later ones raise; the state counts the requests. *)
Definition third_raises (q : request) (w : nat) : (exn + Z * element) * nat :=
  (if (w <? 2)%nat then inr (200, prefixed_card_page) else inl ValueError, S w).

(** Requests that all raise. *)
Definition all_raise (q : request) (w : unit) : (exn + Z * element) * unit :=
  (inl ValueError, w).

(** Requests that all raise; the state counts them. *)
Definition count_and_raise (q : request) (w : nat) : (exn + Z * element) * nat :=
  (inl ValueError, S w).

(** * Properties *)

(** ** The result monad *)

Lemma bind_Ret_inv {A B : Type} (c : res A) (f : A -> res B) (b : B) :
  c ≫= f = Ret b -> exists a, c = Ret a /\ f a = Ret b.
Proof. destruct c as [a| |]; simpl; intros H; [eauto | discriminate..]. Qed.

Ltac inv_bind H :=
  let a := fresh "a" in
  let Ha := fresh "Ha" in
  apply bind_Ret_inv in H; destruct H as (a & Ha & H).

(** ** Cleaning *)

Lemma keep_movie_Some seen m k :
  keep_movie seen m = Ret (Some k) ->
  m ≠ ∅ /\ (k ∉ seen) /\
  exists t, m !! "title" = Some t /\ truthy t = Ret true /\
            ne_unknown t = true /\ hash_key t = Ret k.
Proof.
  unfold keep_movie. case_bool_decide as Hm; [discriminate|].
  destruct (m !! "title") as [t|]; [|discriminate].
  intros H. inv_bind H. destruct a; simpl in H; [|discriminate].
  destruct (ne_unknown t) eqn:Hu; simpl in H; [|discriminate].
  inv_bind H. case_bool_decide as Hk; [discriminate|].
  injection H as <-. eauto 10.
Qed.

Lemma keep_movie_title_key seen m k :
  keep_movie seen m = Ret (Some k) -> title_key m = Some k.
Proof.
  intros H. apply keep_movie_Some in H as (_ & _ & t & Ht & _ & _ & Hk).
  unfold title_key. by rewrite Ht, Hk.
Qed.

Lemma clean_keys seen l v :
  clean seen l = Ret v ->
  Forall (fun m => exists k, keep_movie [] m = Ret (Some k) /\ k ∉ seen) v /\
  NoDup (title_key <$> v).
Proof.
  revert seen v. induction l as [|m l IH]; intros seen v H; simpl in H.
  - injection H as <-. split; constructor.
  - inv_bind H. destruct a as [k|].
    + inv_bind H. injection H as <-.
      destruct (IH _ _ Ha0) as [Hall Hnd].
      pose proof (keep_movie_Some _ _ _ Ha) as (Hm & Hk & t & Ht & Htr & Hu & Hh).
      assert (Hk0 : keep_movie [] m = Ret (Some k)).
      { unfold keep_movie. rewrite bool_decide_eq_false_2 by done.
        rewrite Ht, Htr. simpl. rewrite Hu, Hh. done. }
      split.
      * constructor; [eauto|].
        eapply Forall_impl; [exact Hall|]. intros m' (k' & Hk' & Hn).
        exists k'. split; [done|]. intros Hin. apply Hn. by right.
      * rewrite fmap_cons. constructor; [|done].
        rewrite (keep_movie_title_key _ _ _ Ha).
        intros Hin. apply list_elem_of_fmap in Hin as (m' & Hm' & Hin).
        rewrite Forall_forall in Hall. destruct (Hall _ Hin) as (k' & Hk' & Hn).
        apply keep_movie_title_key in Hk'. rewrite Hk' in Hm'.
        injection Hm' as ->. apply Hn. by left.
    + destruct (IH _ _ H) as [Hall Hnd]. done.
Qed.

(** ** Sorting *)

Lemma insert_by_rank_perm x l r :
  insert_by_rank x l = Ret r -> r ≡ₚ x :: l.
Proof.
  revert r. induction l as [|y l IH]; intros r H; simpl in H.
  - by injection H as <-.
  - inv_bind H. destruct a.
    + inv_bind H. injection H as <-.
      rewrite (IH _ Ha0). apply Permutation_swap.
    + by injection H as <-.
Qed.

Lemma sort_by_rank_perm l s : sort_by_rank l = Ret s -> s ≡ₚ l.
Proof.
  revert s. induction l as [|x l IH]; intros s H; simpl in H.
  - by injection H as <-.
  - inv_bind H. rewrite (insert_by_rank_perm _ _ _ H). by rewrite (IH _ Ha).
Qed.

(** ** Re-ranking *)

Lemma rerank_from_lookup start l i m :
  rerank_from start l !! i = Some m ->
  exists m0, l !! i = Some m0 /\ m = <["rank" := VInt (start + Z.of_nat i)]> m0.
Proof.
  unfold rerank_from. revert start i.
  induction l as [|x l IH]; intros start i H; simpl in H; [done|].
  destruct i as [|i]; simpl in *.
  - injection H as <-. exists x. split; [done|]. by rewrite Z.add_0_r.
  - destruct (IH _ _ H) as (m0 & Hm0 & ->). exists m0. split; [done|].
    do 2 f_equal. lia.
Qed.

Lemma rerank_from_title_key start l :
  title_key <$> rerank_from start l = title_key <$> l.
Proof.
  unfold rerank_from. revert start.
  induction l as [|x l IH]; intros start; [done|].
  cbn [enumerate]. rewrite !fmap_cons. f_equal; [|apply IH].
  unfold title_key. cbn [fst snd]. by rewrite lookup_insert_ne.
Qed.

(** ** Movies the cleaning loop keeps *)

Lemma named_title m :
  named m -> exists t, m !! "title" = Some t /\ t ≠ VStr "Unknown".
Proof.
  intros (k & Hk). apply keep_movie_Some in Hk as (_ & _ & t & Ht & _ & Hu & _).
  exists t. split; [done|]. intros ->. discriminate.
Qed.

Lemma named_insert_rank m r : named m -> named (<["rank" := r]> m).
Proof.
  intros (k & Hk). exists k.
  pose proof (keep_movie_Some _ _ _ Hk) as (_ & _ & t & Ht & Htr & Hu & Hh).
  unfold keep_movie. rewrite bool_decide_eq_false_2 by apply insert_non_empty.
  rewrite lookup_insert_ne by done. rewrite Ht, Htr. simpl. by rewrite Hu, Hh.
Qed.

Lemma keep_movie_unseen seen m k :
  keep_movie [] m = Ret (Some k) -> k ∉ seen -> keep_movie seen m = Ret (Some k).
Proof.
  intros Hk Hn.
  pose proof (keep_movie_Some _ _ _ Hk) as (Hm & _ & t & Ht & Htr & Hu & Hh).
  unfold keep_movie. rewrite bool_decide_eq_false_2 by done.
  rewrite Ht, Htr. simpl. rewrite Hu, Hh. simpl.
  by rewrite bool_decide_eq_false_2.
Qed.

Lemma clean_named seen l v : clean seen l = Ret v -> Forall named v.
Proof.
  intros H. apply clean_keys in H as [H _].
  eapply Forall_impl; [exact H|]. intros m (k & Hk & _). by exists k.
Qed.

Lemma rerank_from_named start l : Forall named l -> Forall named (rerank_from start l).
Proof.
  unfold rerank_from. intros H. revert start.
  induction H as [|x l Hx Hl IH]; intros start; [constructor|].
  cbn [enumerate]. rewrite fmap_cons. constructor; [|apply IH].
  by apply named_insert_rank.
Qed.

Lemma clean_fixed seen l :
  Forall named l -> NoDup (title_key <$> l) ->
  (forall k, k ∈ seen -> Some k ∉ title_key <$> l) ->
  clean seen l = Ret l.
Proof.
  intros Hall. revert seen. induction Hall as [|m l (k & Hk) Hl IH];
    intros seen Hnd Hseen; [done|].
  rewrite fmap_cons in Hnd. apply NoDup_cons in Hnd as [Hm Hnd].
  pose proof (keep_movie_title_key _ _ _ Hk) as Htk.
  simpl. rewrite (keep_movie_unseen seen m k Hk).
  - simpl. rewrite IH; [done | done |].
    intros k' [->|Hin]%elem_of_cons.
    + by rewrite <- Htk.
    + intros Hin'. apply (Hseen k' Hin). rewrite fmap_cons. by right.
  - intros Hin. apply (Hseen k Hin). rewrite fmap_cons, Htk. by left.
Qed.

(** ** The normaliser's output *)

Lemma normalize_shape all_movies out :
  normalize all_movies = Ret out ->
  exists sorted, out = take 250 (rerank_from 1 sorted) /\
                 Forall named sorted /\ NoDup (title_key <$> sorted).
Proof.
  unfold normalize. intros H. inv_bind H. inv_bind H. injection H as <-.
  exists a0. split; [done|].
  pose proof (sort_by_rank_perm _ _ Ha0) as Hp.
  split.
  - rewrite Hp. by eapply clean_named.
  - rewrite Hp. by apply clean_keys in Ha as [_ ?].
Qed.

Lemma normalize_named all_movies out :
  normalize all_movies = Ret out -> Forall named out /\ NoDup (title_key <$> out).
Proof.
  intros (sorted & -> & Hn & Hnd)%normalize_shape. split.
  - apply Forall_take. by apply rerank_from_named.
  - rewrite fmap_take, rerank_from_title_key.
    eapply sublist_NoDup; [done | apply sublist_take].
Qed.

Lemma normalize_ranks all_movies out i m :
  normalize all_movies = Ret out -> out !! i = Some m ->
  m !! "rank" = Some (VInt (Z.of_nat i + 1)).
Proof.
  intros (sorted & -> & _)%normalize_shape Hi.
  apply lookup_take_Some in Hi as [Hi _].
  apply rerank_from_lookup in Hi as (m0 & _ & ->).
  rewrite lookup_insert_eq. do 2 f_equal. lia.
Qed.

(** C1. Every list the normalisation pass of [scrape_top250] returns has the
    ranks 1..N in order, pairwise distinct titles, no title equal to
    "Unknown", and at most 250 items. *)
Theorem normalize_invariants (all_movies out : list movie) :
  normalize all_movies = Ret out ->
  (.!! "rank") <$> out
    = (fun i => Some (VInt i)) <$> seqZ 1 (Z.of_nat (length out)) /\
  NoDup ((.!! "title") <$> out) /\
  Forall (fun m => m !! "title" ≠ Some (VStr "Unknown")) out /\
  (length out <= 250)%nat.
Proof.
  intros H. pose proof (normalize_named _ _ H) as [Hn Hnd].
  split; [|split; [|split]].
  - apply list_eq. intros i. rewrite !list_lookup_fmap.
    destruct (out !! i) as [m|] eqn:Hi; simpl.
    + rewrite (normalize_ranks _ _ _ _ H Hi).
      apply lookup_lt_Some in Hi.
      rewrite lookup_seqZ_lt by lia. simpl. by rewrite Z.add_comm.
    + apply lookup_ge_None in Hi. rewrite lookup_seqZ_ge by lia. done.
  - assert (Heq : title_key <$> out
      = (fun o : option value => match o with
           | Some t => match hash_key t with Ret k => Some k | _ => None end
           | None => None end) <$> ((.!! "title") <$> out)).
    { rewrite <- list_fmap_compose. done. }
    rewrite Heq in Hnd. by apply NoDup_fmap_1 in Hnd.
  - eapply Forall_impl; [exact Hn|]. intros m (t & Ht & Hu)%named_title.
    rewrite Ht. congruence.
  - apply normalize_shape in H as (sorted & -> & _). rewrite length_take. lia.
Qed.

(** ** Running the normaliser on its own output *)

Lemma ranked_from_cons start x l :
  ranked_from start (x :: l) ->
  x !! "rank" = Some (VInt start) /\ ranked_from (start + 1) l.
Proof.
  intros H. split.
  - rewrite (H 0%nat x eq_refl). by rewrite Z.add_0_r.
  - intros i m Hi. rewrite (H (S i) m Hi). do 2 f_equal. lia.
Qed.

Lemma sort_by_rank_ranked start l : ranked_from start l -> sort_by_rank l = Ret l.
Proof.
  revert start. induction l as [|x l IH]; intros start H; [done|].
  apply ranked_from_cons in H as [Hx Hl].
  simpl. rewrite (IH _ Hl). simpl.
  destruct l as [|y l]; [done|].
  apply ranked_from_cons in Hl as [Hy _].
  simpl. unfold rank_key. rewrite Hx, Hy. simpl.
  by rewrite (proj2 (Z.ltb_ge _ _)) by lia.
Qed.

Lemma rerank_from_ranked start l : ranked_from start l -> rerank_from start l = l.
Proof.
  unfold rerank_from. revert start.
  induction l as [|x l IH]; intros start H; [done|].
  apply ranked_from_cons in H as [Hx Hl].
  cbn [enumerate]. rewrite fmap_cons. cbn [fst snd].
  rewrite (insert_id _ _ _ Hx). f_equal. by apply IH.
Qed.

(** C6. The normalisation pass is idempotent: on a list it has returned it
    returns that same list. *)
Theorem normalize_idempotent (all_movies out : list movie) :
  normalize all_movies = Ret out -> normalize out = Ret out.
Proof.
  intros H.
  pose proof (normalize_named _ _ H) as [Hn Hnd].
  assert (Hr : ranked_from 1 out).
  { intros i m Hi. rewrite (normalize_ranks _ _ _ _ H Hi). do 2 f_equal. lia. }
  assert (Hlen : (length out <= 250)%nat).
  { apply normalize_shape in H as (sorted & -> & _). rewrite length_take. lia. }
  unfold normalize.
  rewrite (clean_fixed [] out Hn Hnd) by (intros k Hk; by apply elem_of_nil in Hk).
  simpl. rewrite (sort_by_rank_ranked 1 out Hr). simpl.
  rewrite (rerank_from_ranked 1 out Hr).
  by rewrite take_ge.
Qed.

(** ** The pass returns on candidates with integer ranks *)

Lemma keep_movie_plain seen m :
  plain_fields m -> exists r, keep_movie seen m = Ret r.
Proof.
  intros [Ht _]. unfold keep_movie. case_bool_decide; [by eexists|].
  destruct Ht as [->|[->|(s & ->)]]; [by eexists..|].
  simpl. destruct (negb (String.eqb s EmptyString)); simpl; [|by eexists].
  destruct (negb (String.eqb s "Unknown")); simpl; by eexists.
Qed.

Lemma clean_plain seen l :
  Forall plain_fields l ->
  exists v, clean seen l = Ret v /\ Forall plain_fields v.
Proof.
  intros H. revert seen. induction H as [|m l Hm _ IH]; intros seen; [by eexists|].
  simpl. destruct (keep_movie_plain seen m Hm) as ([k|] & ->); simpl.
  - destruct (IH (k :: seen)) as (v & -> & Hv). eexists. split; [done|].
    by constructor.
  - apply IH.
Qed.

Lemma insert_by_rank_plain x l :
  plain_fields x -> Forall plain_fields l -> exists r, insert_by_rank x l = Ret r.
Proof.
  intros [_ (n & Hx)] H. induction H as [|y l [_ (k & Hy)] _ IH]; [by eexists|].
  simpl. rewrite Hx, Hy. simpl. destruct (k <? n); [|by eexists].
  destruct IH as (r & ->). by eexists.
Qed.

Lemma sort_by_rank_plain l :
  Forall plain_fields l -> exists s, sort_by_rank l = Ret s.
Proof.
  induction 1 as [|x l Hx Hl IH]; [by eexists|].
  simpl. destruct IH as (s & Hs). rewrite Hs. simpl.
  apply insert_by_rank_plain; [done|].
  by rewrite (sort_by_rank_perm _ _ Hs).
Qed.

(** On candidates with integer ranks the pass returns a list. *)
Lemma normalize_returns (all_movies : list movie) :
  Forall plain_fields all_movies -> exists out, normalize all_movies = Ret out.
Proof.
  intros H. unfold normalize.
  destruct (clean_plain [] all_movies H) as (v & -> & Hv). simpl.
  destruct (sort_by_rank_plain v Hv) as (s & ->). by eexists.
Qed.

(** ** Ranks that cannot be compared *)

(** C5 (the code departs from it). A movie in which no rank was found has
    the key [rank] with the value [None], so the default 999 of
    [x.get('rank', 999)] is not used; with a second movie in the list the sort
    compares [None] with an integer and the pass raises [TypeError]. *)
Theorem normalize_none_rank_raises :
  extract_from_classic_page unranked_page = Ret unranked_then_ranked /\
  rank_key (mk_movie VNone (VStr "Casablanca") VNone VNone VNone) = VNone /\
  normalize unranked_then_ranked = Raise TypeError.
Proof. split; [reflexivity|]. split; reflexivity. Qed.

(** The same through [scrape_top250], when the first stage returns that list
    and the other stages return nothing. *)
Lemma scrape_top250_raises (w w1 w2 w3 : world) :
  try_classic_imdb_page w = (unranked_then_ranked, w1) ->
  try_paginated_requests w1 = ([], w2) ->
  try_mobile_and_alternative_endpoints w2 = ([], w3) ->
  scrape_top250 w = (Raise TypeError, w3).
Proof.
  intros H1 H2 H3. unfold scrape_top250, select_candidates.
  rewrite H1. change (len (@nil movie) <? len unranked_then_ranked) with true.
  cbv iota. change (len unranked_then_ranked <? 200) with true. cbv iota.
  rewrite H2. change (len unranked_then_ranked <? len (@nil movie)) with false.
  cbv iota. change (len unranked_then_ranked <? 200) with true. cbv iota.
  rewrite H3. reflexivity.
Qed.

(** Only a movie without the key [rank] is compared as rank 999. *)
Lemma rank_key_absent (m : movie) : m !! "rank" = None -> rank_key m = VInt 999.
Proof. unfold rank_key. by intros ->. Qed.

(** ** Digits and the regular expressions *)

Lemma py_int_run s :
  s ≠ EmptyString -> all_chars is_digit s = true ->
  py_int s = if Z.of_nat (String.length s) <=? int_max_str_digits
             then Ret (int_of_digits 0 s) else Raise ValueError.
Proof.
  intros Hne Hd. unfold py_int. destruct s; [done|]. by rewrite Hd.
Qed.

Lemma py_int_digits s :
  s ≠ EmptyString -> all_chars is_digit s = true ->
  Z.of_nat (String.length s) <= int_max_str_digits ->
  py_int s = Ret (int_of_digits 0 s).
Proof.
  intros Hne Hd Hlen. rewrite (py_int_run s Hne Hd).
  by rewrite (proj2 (Z.leb_le _ _) Hlen).
Qed.

(** [int] on a run of digits returns, or raises [ValueError] when the run
    is too long. *)
Lemma int_value_run s :
  s ≠ EmptyString -> all_chars is_digit s = true ->
  int_value s = if Z.of_nat (String.length s) <=? int_max_str_digits
                then Ret (VInt (int_of_digits 0 s)) else Raise ValueError.
Proof.
  intros Hne Hd. unfold int_value. rewrite (py_int_run s Hne Hd).
  by destruct (_ <=? _).
Qed.

Lemma all_chars_take_while p s : all_chars p (take_while p s) = true.
Proof.
  induction s as [|c s IH]; simpl; [done|].
  destruct (p c) eqn:Hc; simpl; [|done]. by rewrite Hc, IH.
Qed.

Lemma four_digits_int s y r :
  four_digits s = Some (y, r) -> py_int y = Ret (int_of_digits 0 y).
Proof.
  unfold four_digits. intros H.
  destruct s as [|a [|b [|c [|d rest]]]]; try discriminate.
  destruct (is_digit a) eqn:Ha; [|discriminate].
  destruct (is_digit b) eqn:Hb; [|discriminate].
  destruct (is_digit c) eqn:Hc; [|discriminate].
  destruct (is_digit d) eqn:Hd; [|discriminate].
  simpl in H. injection H as <- <-.
  apply py_int_digits; [done | simpl; by rewrite Ha, Hb, Hc, Hd | done].
Qed.

Lemma search_year_int s y :
  search_year s = Some y -> py_int y = Ret (int_of_digits 0 y).
Proof.
  induction s as [|c s IH].
  - discriminate.
  - cbn [search_year].
    destruct (four_digits (String c s)) as [[y' r]|] eqn:Hf.
    + intros [= <-]. by eapply four_digits_int.
    + exact IH.
Qed.

Lemma search_minutes_run s d :
  search_minutes s = Some d -> d ≠ EmptyString /\ all_chars is_digit d = true.
Proof.
  induction s as [|c s IH]; [discriminate|].
  cbn [search_minutes].
  destruct (take_while is_digit (String c s)) as [|c' d'] eqn:Ht; [exact IH|].
  destruct (strip_prefix _ _); [|exact IH].
  intros [= <-]. split; [done|].
  rewrite <- Ht. apply all_chars_take_while.
Qed.

(** Every match [findall] returns is the group of a match of the pattern. *)
Lemma findall_from_groups m skip s :
  Forall (fun g => exists s' r, m s' = Some (g, r)) (findall_from m skip s).
Proof.
  revert skip. induction s as [|c s IH]; intros skip; simpl; [constructor|].
  destruct skip; [|apply IH].
  destruct (m (String c s)) as [[g after]|] eqn:Hm; [|apply IH].
  constructor; [eauto | apply IH].
Qed.

Lemma findall_release_year_int script :
  Forall (fun y => py_int y = Ret (int_of_digits 0 y)) (findall match_release_year script).
Proof.
  eapply Forall_impl; [apply findall_from_groups|].
  intros y (s' & r & H). unfold match_release_year in H.
  destruct (match_key _ _); [|discriminate]. by eapply four_digits_int.
Qed.

(** ** The embedded-script hypothesis *)

Lemma embedded_movie_inv years ratings movies it out :
  embedded_movie years ratings movies it = Ret out ->
  exists m, out = movies ++ [m] /\ embedded_item years ratings it.1 it.2 m.
Proof.
  unfold embedded_movie. intros H. inv_bind H. inv_bind H. injection H as <-.
  eexists. split; [done|]. exists a, a0. split; [done|]. split.
  - intros Hn. rewrite Hn in Ha. by injection Ha.
  - intros Hn. rewrite Hn in Ha0. by injection Ha0.
Qed.

Lemma embedded_loop_inv years ratings titles start movies out :
  for_each (enumerate start titles) (embedded_movie years ratings) movies = Ret out ->
  exists items, out = movies ++ items /\ length items = length titles /\
    forall j m, items !! j = Some m ->
      exists t, titles !! j = Some t /\
                embedded_item years ratings (start + Z.of_nat j) t m.
Proof.
  revert start movies. induction titles as [|t titles IH]; intros start movies H.
  - simpl in H. injection H as <-. exists []. rewrite app_nil_r. done.
  - cbn [enumerate for_each] in H. inv_bind H.
    apply embedded_movie_inv in Ha as (m0 & -> & Hm0). simpl in Hm0.
    apply IH in H as (items & -> & Hlen & Hitems).
    exists (m0 :: items). rewrite <- app_assoc. split; [done|].
    split; [simpl; by rewrite Hlen|].
    intros [|j] m Hj; simpl in Hj.
    + injection Hj as <-. exists t. split; [done|]. by rewrite Z.add_0_r.
    + destruct (Hitems _ _ Hj) as (t' & Ht' & Hit). exists t'. split; [done|].
      replace (start + Z.of_nat (S j)) with (start + 1 + Z.of_nat j) by lia. done.
Qed.

Lemma embedded_movie_runs years ratings movies it :
  Forall (fun y => py_int y = Ret (int_of_digits 0 y)) years ->
  Forall (fun r => float_ok r = true) ratings ->
  exists out, embedded_movie years ratings movies it = Ret out.
Proof.
  intros Hy Hr. unfold embedded_movie.
  assert (Hyear : exists y,
    match years !! Z.to_nat it.1 with
    | Some y => int_value y | None => Ret VNone end = Ret y).
  { destruct (years !! Z.to_nat it.1) as [y|] eqn:E; [|by eexists].
    rewrite Forall_forall in Hy. unfold int_value.
    rewrite (Hy y) by (by eapply list_elem_of_lookup_2). by eexists. }
  assert (Hrating : exists r,
    match ratings !! Z.to_nat it.1 with
    | Some r => py_float r | None => Ret VNone end = Ret r).
  { destruct (ratings !! Z.to_nat it.1) as [r|] eqn:E; [|by eexists].
    rewrite Forall_forall in Hr. unfold py_float.
    rewrite (Hr r) by (by eapply list_elem_of_lookup_2). by eexists. }
  destruct Hyear as (y & ->). destruct Hrating as (r & ->). by eexists.
Qed.

Lemma embedded_loop_runs years ratings titles start movies :
  Forall (fun y => py_int y = Ret (int_of_digits 0 y)) years ->
  Forall (fun r => float_ok r = true) ratings ->
  exists out, for_each (enumerate start titles) (embedded_movie years ratings) movies
              = Ret out.
Proof.
  intros Hy Hr. revert start movies.
  induction titles as [|t titles IH]; intros start movies; [by eexists|].
  cbn [enumerate for_each].
  destruct (embedded_movie_runs years ratings movies (start, t) Hy Hr) as (o & ->).
  simpl. apply IH.
Qed.

Lemma embedded_patterns_ranks script keys out i m :
  embedded_patterns script [] keys = Ret out -> out !! i = Some m ->
  m !! "url" = Some VNone /\ m !! "rank" = Some (VInt (Z.of_nat i + 1)).
Proof.
  induction keys as [|key keys IH]; simpl; intros H Hi.
  - injection H as <-. done.
  - destruct (50 <? len (findall (match_quoted key) script)); [|by apply IH].
    inv_bind H. apply embedded_loop_inv in Ha as (items & -> & _ & Hitems).
    simpl in H. destruct items as [|m0 items]; [by apply IH|].
    injection H as <-.
    destruct (Hitems _ _ Hi) as (t & _ & y & r & -> & _). done.
Qed.

(** C10. Every item of the embedded-script hypothesis has [url = None] and
    the rank of its position, counted from 1. *)
Theorem embedded_json_rank_and_url (script_content : string) (out : list movie)
    (i : nat) (m : movie) :
  extract_from_embedded_json script_content = Ret out ->
  out !! i = Some m ->
  m !! "url" = Some VNone /\ m !! "rank" = Some (VInt (Z.of_nat i + 1)).
Proof.
  unfold extract_from_embedded_json. intros H Hi.
  destruct (embedded_patterns script_content [] title_keys) as [l|e|] eqn:E;
    simpl in H; [| |discriminate].
  - injection H as ->. by eapply embedded_patterns_ranks.
  - injection H as <-. done.
Qed.

Lemma len_gt_50 {A : Type} (l : list A) : (50 <? len l) = bool_decide (50 < length l)%nat.
Proof.
  unfold len. destruct (Z.ltb_spec 50 (Z.of_nat (length l))).
  - rewrite bool_decide_eq_true_2; [done | lia].
  - rewrite bool_decide_eq_false_2; [done | lia].
Qed.

Lemma embedded_patterns_matched script keys titles :
  Forall (fun r => float_ok r = true) (findall match_rating_value script) ->
  head (filter (fun ts : list string => (50 < length ts)%nat)
          ((fun key => findall (match_quoted key) script) <$> keys)) = Some titles ->
  exists out,
    embedded_patterns script [] keys = Ret out /\
    for_each (enumerate 0 (take 250 titles))
      (embedded_movie (findall match_release_year script)
         (findall match_rating_value script)) [] = Ret out.
Proof.
  intros Hr. induction keys as [|key keys IH]; [discriminate|].
  rewrite fmap_cons, filter_cons. cbn [embedded_patterns].
  rewrite len_gt_50. case_decide as Hlen.
  - rewrite bool_decide_eq_true_2 by done. intros [= <-].
    destruct (embedded_loop_runs (findall match_release_year script)
                (findall match_rating_value script)
                (take 250 (findall (match_quoted key) script)) 0 []
                (findall_release_year_int script) Hr) as (out & Hout).
    exists out. rewrite Hout. split; [|done]. simpl.
    apply embedded_loop_inv in Hout as (items & -> & Hl & _).
    rewrite length_take in Hl.
    destruct items; [cbn [length] in Hl; lia | done].
  - rewrite bool_decide_eq_false_2 by done. exact IH.
Qed.

(** C7. When the first title pattern with more than 50 matches gives
    [titles], the embedded-script hypothesis returns without raising, one item
    for each of the first 250 titles, in order; an item whose position has no
    match in the years (in the ratings) has [year] ([rating]) [None].  With 60
    titles and 55 years these are the items at positions 55 to 59.  It is
    assumed that [float] accepts the texts the rating pattern matches. *)
Theorem embedded_json_pairs_by_position (script_content : string)
    (titles : list string) :
  (forall s d r, decimal_prefix s = Some (d, r) -> float_ok d = true) ->
  matched_titles script_content = Some titles ->
  exists out,
    extract_from_embedded_json script_content = Ret out /\
    length out = Nat.min (length titles) 250 /\
    (length out <= 250)%nat /\
    forall i m, out !! i = Some m ->
      m !! "title" = VStr <$> titles !! i /\
      ((length (findall match_release_year script_content) <= i)%nat ->
       m !! "year" = Some VNone) /\
      ((length (findall match_rating_value script_content) <= i)%nat ->
       m !! "rating" = Some VNone).
Proof.
  intros Hfloat Hm.
  assert (Hr : Forall (fun r => float_ok r = true)
                 (findall match_rating_value script_content)).
  { eapply Forall_impl; [apply findall_from_groups|].
    intros d (s' & r & H). unfold match_rating_value in H.
    destruct (match_key _ _); [|discriminate]. by eapply Hfloat. }
  destruct (embedded_patterns_matched _ _ _ Hr Hm) as (out & Hp & Hloop).
  exists out. unfold extract_from_embedded_json. rewrite Hp. split; [done|].
  apply embedded_loop_inv in Hloop as (items & -> & Hl & Hitems).
  rewrite length_take in Hl. simpl.
  split; [lia|]. split; [lia|].
  intros i m Hi. destruct (Hitems _ _ Hi) as (t & Ht & y & r & -> & Hy & Hrt).
  apply lookup_take_Some in Ht as [Ht _].
  rewrite Z.add_0_l, Nat2Z.id in Hy, Hrt.
  split; [by rewrite Ht|]. split.
  - intros Hge. rewrite Hy; [done | by apply lookup_ge_None].
  - intros Hge. rewrite Hrt; [done | by apply lookup_ge_None].
Qed.

(** ** The orchestrator *)

Lemma longer_than_nil {A : Type} (l : list A) :
  (if len (@nil A) <? len l then l else []) = l.
Proof. by destruct l. Qed.

Ltac stage_lengths :=
  let j := fresh "j" in
  let c := fresh "c" in
  let Hj := fresh "Hj" in
  intros j c Hj; try (intros ?);
  destruct j as [|[|[|j]]]; simpl in Hj; try discriminate Hj;
  injection Hj as <-; simpl in *; lia.

(** The later stages are not run once the working list has 200 items. *)
Lemma select_candidates_stops (w w1 : world) (classic : list movie) :
  try_classic_imdb_page w = (classic, w1) ->
  200 <= len classic ->
  select_candidates w = (classic, w1).
Proof.
  intros H Hlen. unfold select_candidates. rewrite H, longer_than_nil.
  by rewrite !(proj2 (Z.ltb_ge (len classic) 200) Hlen).
Qed.

(** C2. Let the three stages, run one after the other, return [c1], [c2]
    and [c3].  The second stage is run when [c1] has fewer than 200 movies,
    and the third when [c2] has fewer than 200 as well.  The working list of
    [scrape_top250] before normalisation is the first longest of the lists
    of the stages that were run: none of those lists is longer, and every
    earlier one is strictly shorter; the network is left as the last stage
    that was run has left it. *)
Theorem select_candidates_longest (w w1 w2 w3 : world) (c1 c2 c3 : list movie) :
  try_classic_imdb_page w = (c1, w1) ->
  try_paginated_requests w1 = (c2, w2) ->
  try_mobile_and_alternative_endpoints w2 = (c3, w3) ->
  first_longest
    (if 200 <=? len c1 then [c1]
     else if 200 <=? len c2 then [c1; c2] else [c1; c2; c3])
    (select_candidates w).1 /\
  (select_candidates w).2
    = (if 200 <=? len c1 then w1 else if 200 <=? len c2 then w2 else w3).
Proof.
  intros H1 H2 H3. unfold select_candidates, first_longest.
  rewrite H1, longer_than_nil. unfold len.
  destruct (Z.leb_spec 200 (Z.of_nat (length c1))) as [Hc1|Hc1].
  { rewrite !(proj2 (Z.ltb_ge _ 200) Hc1). cbn [fst snd]. split; [|done].
    exists 0%nat. split; [done|]. split; stage_lengths. }
  rewrite (proj2 (Z.ltb_lt _ 200) Hc1), H2.
  destruct (Z.leb_spec 200 (Z.of_nat (length c2))) as [Hc2|Hc2].
  { assert (Hlt : (Z.of_nat (length c1) <? Z.of_nat (length c2)) = true)
      by (apply Z.ltb_lt; lia).
    rewrite Hlt, (proj2 (Z.ltb_ge _ 200) Hc2). cbn [fst snd]. split; [|done].
    exists 1%nat. split; [done|]. split; stage_lengths. }
  assert (Hbest : (Z.of_nat (length (if Z.of_nat (length c1) <? Z.of_nat (length c2)
                                     then c2 else c1)) <? 200) = true).
  { apply Z.ltb_lt. destruct (_ <? _); lia. }
  rewrite Hbest, H3. cbn [fst snd]. split; [|done].
  destruct (Z.ltb_spec (Z.of_nat (length c1)) (Z.of_nat (length c2))) as [H12|H12].
  - destruct (Z.ltb_spec (Z.of_nat (length c2)) (Z.of_nat (length c3))).
    + exists 2%nat. split; [done|]. split; stage_lengths.
    + exists 1%nat. split; [done|]. split; stage_lengths.
  - destruct (Z.ltb_spec (Z.of_nat (length c1)) (Z.of_nat (length c3))).
    + exists 2%nat. split; [done|]. split; stage_lengths.
    + exists 0%nat. split; [done|]. split; stage_lengths.
Qed.

(** ** The generic selector sweep *)

Lemma for_each_prefix {A B : Type} (l : list A) (body : list B -> A -> res (list B))
    (st out : list B) :
  (forall s x s', body s x = Ret s' -> s `prefix_of` s') ->
  for_each l body st = Ret out -> st `prefix_of` out.
Proof.
  intros Hb. revert st. induction l as [|x l IH]; intros st H; simpl in H.
  - by injection H as <-.
  - inv_bind H. etrans; [by eapply Hb | by apply IH].
Qed.

Lemma append_if_titled_prefix movies md out :
  append_if_titled movies md = Ret out -> movies `prefix_of` out.
Proof.
  unfold append_if_titled. destruct md as [m|]; [|by intros [= <-]].
  case_bool_decide; [by intros [= <-]|].
  destruct (m !! "title") as [t|]; [|discriminate].
  intros [= <-]. destruct (ne_unknown t); [by apply prefix_app_r | done].
Qed.

(** What earlier selectors of the sweep have collected stays in the result. *)
Lemma sweep_keeps_collected soup movies selectors out :
  sweep soup movies selectors = Ret out -> movies `prefix_of` out.
Proof.
  revert movies. induction selectors as [|sel rest IH]; intros movies H.
  - simpl in H. by injection H as <-.
  - cbn [sweep] in H. destruct (select soup sel) as [|e es] eqn:Es; [by apply IH|].
    inv_bind H.
    assert (Hp : movies `prefix_of` a).
    { eapply for_each_prefix; [|exact Ha].
      intros s x s' Hs. inv_bind Hs. by eapply append_if_titled_prefix. }
    destruct (50 <? len a).
    + injection H as <-. done.
    + etrans; [exact Hp | by apply IH].
Qed.

(** C3 (the code departs from it). On [sweep_page] the first selector finds
    10 elements and the second 60; the result of the sweep is the 10 movies
    of the first selector followed by the 60 of the second. *)
Theorem sweep_accumulates_across_selectors :
  length (select sweep_page "li.ipc-metadata-list-summary-item") = 10%nat /\
  length (select sweep_page "tr[data-testid]") = 60%nat /\
  parse_html_for_movies sweep_page
    = Ret ((plain_movie "Alien" <$> seqZ 1 10) ++ (plain_movie "Brazil" <$> seqZ 1 60)).
Proof. split; [reflexivity|]. split; reflexivity. Qed.

(** ** The modern card list *)

Lemma mk_movie_nonempty rank title year rating url :
  mk_movie rank title year rating url ≠ ∅.
Proof. apply insert_non_empty. Qed.

Lemma float_or_none_runs s : exists v, float_or_none s = Ret v.
Proof.
  unfold float_or_none, py_float. destruct (float_ok s); simpl; by eexists.
Qed.

Lemma year_of_runs year_elem : exists v, year_of year_elem = Ret v.
Proof.
  unfold year_of. destruct year_elem as [e|]; [|by eexists].
  destruct (search_year (get_text_strip e)) as [y|] eqn:E; [|by eexists].
  unfold int_value. rewrite (search_year_int _ _ E). by eexists.
Qed.

(** The link of a movie: [None], a text, or the [ValueError] of [urljoin]. *)
Lemma url_of_cases link :
  (exists u, url_of link = Ret u /\ (u = VNone \/ exists s, u = VStr s)) \/
  url_of link = Raise ValueError.
Proof.
  unfold url_of. destruct link as [a|]; [|by eauto].
  destruct (attr a "href") as [[|c h]|]; [by eauto| |by eauto].
  destruct (urljoin base_url (String c h));
    [left; eexists; split; [done|]; right; by eexists | by right].
Qed.

(** A container gives a movie with the rank it is passed, or nothing. *)
Lemma extract_from_container_rank container rank :
  extract_from_container container rank = Ret None \/
  exists title year rating url,
    extract_from_container container rank
    = Ret (Some (mk_movie (VInt rank) (VStr title) year rating url)).
Proof.
  unfold extract_from_container.
  destruct (year_of_runs (find container (ByClass "span" "cli-title-metadata-item")))
    as (y & ->).
  cbn [mbind res_bind].
  assert (Hrating : exists r,
    match find container (ByClass "span" "ipc-rating-star--rating") with
    | Some rating_elem => float_or_none (get_text_strip rating_elem)
    | None => Ret VNone
    end = Ret r).
  { destruct (find container (ByClass "span" "ipc-rating-star--rating")) as [e|];
      [apply float_or_none_runs | by eexists]. }
  destruct Hrating as (r & ->). cbn [mbind res_bind].
  destruct (url_of_cases (find container (ByClass "a" "ipc-title-link-wrapper")))
    as [(u & -> & _)| ->]; [right; by do 4 eexists | by left].
Qed.

(** C8 (the code departs from it). On a page whose only card is headed
    "7. The Godfather", the modern card list gives the movie the rank 1 of
    its position: [extract_from_container] takes the prefix off the title
    and does not read the rank from it.  The generic extractor, given the
    same card and the same position, returns the rank 7 of the prefix. *)
Theorem modern_card_prefix_not_read :
  leading_rank "7. The Godfather" = Some "7" /\
  extract_from_classic_page prefixed_card_page
    = Ret [plain_movie "The Godfather" 1] /\
  extract_movie_data_generic (card "7. The Godfather") 1
    = Ret (Some (plain_movie "The Godfather" 7)).
Proof. split; [reflexivity|]. split; reflexivity. Qed.

(** ** The detail page *)

Lemma first_director_none soup selectors :
  Forall (fun sel => select_one soup sel = None) selectors ->
  first_director soup selectors = "Unknown".
Proof.
  induction 1 as [|sel rest Hsel _ IH]; [done|]. simpl. by rewrite Hsel.
Qed.

Lemma first_genres_none soup selectors :
  Forall (fun sel => select soup sel = []) selectors ->
  first_genres soup selectors = [].
Proof.
  induction 1 as [|sel rest Hsel _ IH]; [done|]. simpl. by rewrite Hsel.
Qed.

(** The runtime: a value, which is [None] when no runtime is found, or the
    [ValueError] of [int] on a run of digits that is too long. *)
Lemma runtime_cases text :
  (exists v, match search_minutes text with
             | Some d => int_value d
             | None => Ret VNone
             end = Ret v /\
             (search_minutes text = None -> v = VNone)) \/
  (match search_minutes text with
   | Some d => int_value d
   | None => Ret VNone
   end = Raise ValueError /\ search_minutes text ≠ None).
Proof.
  destruct (search_minutes text) as [d|] eqn:E; [|left; by eexists].
  destruct (search_minutes_run _ _ E) as [Hne Hd].
  rewrite (int_value_run d Hne Hd).
  destruct (_ <=? _); [left; by eexists | by right].
Qed.

(** [get_additional_details] returns a record whatever the network does. *)
Lemma get_additional_details_returns (movie_url : string) (w : world) :
  exists d, (get_additional_details movie_url w).1 = Ret d.
Proof.
  unfold get_additional_details.
  destruct (get_page_with_retries movie_url w) as [[soup|] w1]; [|by eexists].
  destruct (runtime_cases (get_text soup)) as [(v & -> & _)|[-> _]]; by eexists.
Qed.

(** C9. On a detail page where no director selector matches,
    [get_additional_details] returns a record, without raising, in which the
    director is "Unknown"; the runtime is [None] when no runtime is found in
    the text, and the genres are "Unknown" when no genre selector matches. *)
Theorem details_default_to_unknown (movie_url : string) (w w' : world)
    (soup : element) :
  get_page_with_retries movie_url w = (Some soup, w') ->
  Forall (fun sel => select_one soup sel = None) director_selectors ->
  exists d,
    (get_additional_details movie_url w).1 = Ret d /\
    d !! "director" = Some (VStr "Unknown") /\
    (search_minutes (get_text soup) = None ->
     d !! "runtime_minutes" = Some VNone) /\
    (Forall (fun sel => select soup sel = []) genre_selectors ->
     d !! "genres" = Some (VStr "Unknown")).
Proof.
  unfold get_additional_details. intros -> Hdir.
  destruct (runtime_cases (get_text soup)) as [(v & -> & Hv)|[-> Hfound]].
  - eexists. split; [done|]. cbn [mbind res_bind].
    rewrite (first_director_none _ _ Hdir).
    split; [done|]. split.
    + intros Hn. by rewrite (Hv Hn).
    + intros Hg. by rewrite (first_genres_none _ _ Hg).
  - exists unknown_details. split; [done|]. split; [done|]. split; [|done].
    intros Hn. by destruct Hfound.
Qed.

(** ** The structured-data hypothesis *)




(** * Further properties of the code *)

(** ** What the normalisation pass keeps *)

Lemma normalize_steps all_movies out :
  normalize all_movies = Ret out ->
  exists valid sorted,
    clean [] all_movies = Ret valid /\ sort_by_rank valid = Ret sorted /\
    out = take 250 (rerank_from 1 sorted).
Proof.
  unfold normalize. intros H. inv_bind H. inv_bind H. injection H as <-. eauto.
Qed.

Lemma keep_movie_same_title seen m s :
  is_Some (s !! "title") -> m !! "title" = s !! "title" ->
  keep_movie seen m = keep_movie seen s.
Proof.
  intros [t Ht] Hm. unfold keep_movie. rewrite Hm.
  rewrite !bool_decide_eq_false_2; [done | |].
  - intros ->. by rewrite lookup_empty in Ht.
  - intros ->. rewrite Ht in Hm. by rewrite lookup_empty in Hm.
Qed.

Lemma clean_first_occurrence seen l v s :
  clean seen l = Ret v -> s ∈ v ->
  exists j, l !! j = Some s /\
    forall j' s', (j' < j)%nat -> l !! j' = Some s' -> s' !! "title" ≠ s !! "title".
Proof.
  revert seen v. induction l as [|m l IH]; intros seen v H Hs; simpl in H.
  { injection H as <-. by apply elem_of_nil in Hs. }
  inv_bind H. destruct a as [k|].
  - inv_bind H. injection H as <-.
    apply elem_of_cons in Hs as [->|Hs].
    + exists 0%nat. split; [done|]. intros j' s' Hlt. lia.
    + destruct (IH _ _ Ha0 Hs) as (j & Hj & Hfirst).
      exists (S j). split; [done|]. intros [|j'] s' Hlt Hs'.
      * simpl in Hs'. injection Hs' as <-. intros Heq.
        apply clean_keys in Ha0 as [Hall _]. rewrite Forall_forall in Hall.
        destruct (Hall _ Hs) as (k' & Hk' & Hn).
        apply keep_movie_title_key in Hk'. apply keep_movie_title_key in Ha.
        unfold title_key in Hk', Ha. rewrite Heq, Hk' in Ha.
        injection Ha as ->. apply Hn. by left.
      * apply (Hfirst j' s'); [lia | done].
  - destruct (IH _ _ H Hs) as (j & Hj & Hfirst).
    exists (S j). split; [done|]. intros [|j'] s' Hlt Hs'.
    + simpl in Hs'. injection Hs' as <-. intros Heq.
      pose proof (clean_keys _ _ _ H) as [Hall _]. rewrite Forall_forall in Hall.
      destruct (Hall _ Hs) as (k' & Hk' & Hn).
      pose proof (keep_movie_Some _ _ _ Hk') as (_ & _ & t & Ht & _).
      rewrite (keep_movie_same_title seen _ s) in Ha; [|by eauto|exact Heq].
      rewrite (keep_movie_unseen seen s k' Hk' Hn) in Ha. discriminate.
    + apply (Hfirst j' s'); [lia | done].
Qed.

(** X1. Every movie of the normalised list is a movie of the candidate list
    in which only the rank has been replaced, by its position counted from 1,
    and among the candidates with its title it is the first one. *)
Theorem normalize_keeps_first_occurrence (all_movies out : list movie)
    (i : nat) (m : movie) :
  normalize all_movies = Ret out ->
  out !! i = Some m ->
  exists j s,
    all_movies !! j = Some s /\
    m = <["rank" := VInt (Z.of_nat i + 1)]> s /\
    forall j' s', (j' < j)%nat -> all_movies !! j' = Some s' ->
                  s' !! "title" ≠ s !! "title".
Proof.
  intros (valid & sorted & Hc & Hs & ->)%normalize_steps Hi.
  apply lookup_take_Some in Hi as [Hi _].
  apply rerank_from_lookup in Hi as (s & Hsi & ->).
  assert (Hin : s ∈ valid).
  { rewrite <- (sort_by_rank_perm _ _ Hs). by eapply list_elem_of_lookup_2. }
  destruct (clean_first_occurrence _ _ _ _ Hc Hin) as (j & Hj & Hfirst).
  exists j, s. split; [done|]. split; [|done].
  do 2 f_equal. lia.
Qed.

(** ** The order of the normalised list *)

Lemma insert_by_rank_ascends x l r :
  (exists n, rank_key x = VInt n) ->
  (forall i i' s s', (i < i')%nat -> l !! i = Some s -> l !! i' = Some s' -> rank_le s s') ->
  Forall (fun m => exists n, rank_key m = VInt n) l ->
  insert_by_rank x l = Ret r ->
  Forall (fun m => exists n, rank_key m = VInt n) r /\
  forall i i' s s', (i < i')%nat -> r !! i = Some s -> r !! i' = Some s' -> rank_le s s'.
Proof.
  intros (n & Hx). revert r. induction l as [|y l IH]; intros r Hsorted Hint H.
  - simpl in H. injection H as <-. split; [repeat constructor; eauto|].
    intros i [|i'] s s' Hlt Hs Hs'; [lia|]. by destruct i'.
  - simpl in H. apply Forall_cons in Hint as [(k & Hy) Hint].
    rewrite Hx, Hy in H. simpl in H.
    destruct (Z.ltb_spec k n) as [Hkn|Hkn].
    + inv_bind H. injection H as <-.
      destruct (IH a) as [Hint' Hsorted']; [|done|done|].
      { intros i i' s s' Hlt Hs Hs'. apply (Hsorted (S i) (S i')); [lia|done..]. }
      split; [constructor; eauto|].
      intros [|i] [|i'] s s' Hlt Hs Hs'; try lia.
      * simpl in Hs, Hs'. injection Hs as <-.
        assert (Hin : s' ∈ x :: l).
        { rewrite <- (insert_by_rank_perm _ _ _ Ha). by eapply list_elem_of_lookup_2. }
        apply elem_of_cons in Hin as [->|Hin].
        -- exists k, n. repeat split; [done..|lia].
        -- apply list_elem_of_lookup_1 in Hin as (p & Hp).
           apply (Hsorted 0%nat (S p)); [lia|done..].
      * simpl in Hs, Hs'. apply (Hsorted' i i'); [lia|done..].
    + injection H as <-. split; [repeat constructor; eauto|].
      intros [|i] [|i'] s s' Hlt Hs Hs'; try lia.
      * simpl in Hs, Hs'. injection Hs as <-.
        destruct i' as [|i']; simpl in Hs'.
        -- injection Hs' as <-. exists n, k. repeat split; [done..|lia].
        -- destruct (Hsorted 0%nat (S i') y s') as (a & b & Ha & Hb & Hab);
             [lia|done..|].
           rewrite Hy in Ha. injection Ha as <-.
           exists n, b. repeat split; [done..|lia].
      * simpl in Hs, Hs'. apply (Hsorted i i'); [lia|done..].
Qed.

Lemma sort_by_rank_ascends l s :
  Forall (fun m => exists n, rank_key m = VInt n) l ->
  sort_by_rank l = Ret s ->
  Forall (fun m => exists n, rank_key m = VInt n) s /\
  forall i i' a b, (i < i')%nat -> s !! i = Some a -> s !! i' = Some b -> rank_le a b.
Proof.
  intros Hint. revert s. induction Hint as [|x l Hx Hl IH]; intros s H; simpl in H.
  - injection H as <-. split; [constructor|]. intros i i' a b _ Ha. done.
  - inv_bind H. destruct (IH _ Ha) as [Hint' Hsorted].
    by eapply insert_by_rank_ascends.
Qed.

Lemma clean_subset seen l v : clean seen l = Ret v -> forall s, s ∈ v -> s ∈ l.
Proof.
  intros H s Hs. destruct (clean_first_occurrence _ _ _ _ H Hs) as (j & Hj & _).
  by eapply list_elem_of_lookup_2.
Qed.

(** X2. When every candidate has an integer rank, the normalised list follows
    the ranks the candidates had: of two movies of the result, the one that
    comes first had a rank that is not above the other's. *)
Theorem normalize_orders_by_rank (all_movies out : list movie) (i i' : nat)
    (m m' : movie) :
  Forall (fun c => exists n, rank_key c = VInt n) all_movies ->
  normalize all_movies = Ret out ->
  (i < i')%nat -> out !! i = Some m -> out !! i' = Some m' ->
  exists s s',
    first_with_title all_movies s /\ first_with_title all_movies s' /\
    m = <["rank" := VInt (Z.of_nat i + 1)]> s /\
    m' = <["rank" := VInt (Z.of_nat i' + 1)]> s' /\
    rank_le s s'.
Proof.
  intros Hint (valid & sorted & Hc & Hs & ->)%normalize_steps Hlt Hi Hi'.
  apply lookup_take_Some in Hi as [Hi _]. apply lookup_take_Some in Hi' as [Hi' _].
  apply rerank_from_lookup in Hi as (s & Hsi & ->).
  apply rerank_from_lookup in Hi' as (s' & Hsi' & ->).
  assert (Hvalid : Forall (fun c => exists n, rank_key c = VInt n) valid).
  { rewrite Forall_forall in Hint. apply Forall_forall. intros c Hcv.
    apply Hint. by eapply clean_subset. }
  destruct (sort_by_rank_ascends _ _ Hvalid Hs) as [_ Hsorted].
  assert (Hin : forall c p, sorted !! p = Some c -> first_with_title all_movies c).
  { intros c p Hp. eapply clean_first_occurrence; [exact Hc|].
    rewrite <- (sort_by_rank_perm _ _ Hs). by eapply list_elem_of_lookup_2. }
  exists s, s'. split; [by eapply Hin|]. split; [by eapply Hin|].
  split; [do 2 f_equal; lia|]. split; [do 2 f_equal; lia|].
  by eapply Hsorted.
Qed.

(** ** Titles that reach the result *)

Lemma clean_covers seen l v s k :
  clean seen l = Ret v -> s ∈ l -> keep_movie [] s = Ret (Some k) ->
  k ∈ seen \/ exists s', s' ∈ v /\ title_key s' = Some k.
Proof.
  revert seen v. induction l as [|m l IH]; intros seen v H Hs Hk.
  { by apply elem_of_nil in Hs. }
  simpl in H. inv_bind H.
  destruct (decide (k ∈ seen)) as [Hin|Hout]; [by left|]. right.
  apply elem_of_cons in Hs as [->|Hs].
  - rewrite (keep_movie_unseen seen m k Hk Hout) in Ha. injection Ha as <-.
    inv_bind H. injection H as <-. exists m. split; [by left|].
    by eapply keep_movie_title_key.
  - destruct a as [k0|].
    + inv_bind H. injection H as <-.
      destruct (IH _ _ Ha0 Hs Hk) as [[->|Hin]%elem_of_cons|(s' & Hs' & Hk')].
      * exists m. split; [by left|]. by eapply keep_movie_title_key.
      * done.
      * exists s'. split; [by right | done].
    + destruct (IH _ _ H Hs Hk) as [Hin|(s' & Hs' & Hk')]; [done|].
      by exists s'.
Qed.

(** X3. Below the cap of 250 no title is lost: when the result has fewer
    than 250 movies, every candidate that passes the cleaning condition has a
    movie with its title in the result. *)
Theorem normalize_keeps_every_title (all_movies out : list movie) (s : movie) :
  normalize all_movies = Ret out ->
  (length out < 250)%nat ->
  s ∈ all_movies -> named s ->
  exists m, m ∈ out /\ title_key m = title_key s.
Proof.
  intros (valid & sorted & Hc & Hs & ->)%normalize_steps Hlen Hin (k & Hk).
  destruct (clean_covers _ _ _ _ _ Hc Hin Hk) as [Hn|(s' & Hs' & Hk')].
  { by apply elem_of_nil in Hn. }
  rewrite take_ge in *.
  2,3: rewrite length_take in Hlen; lia.
  rewrite <- (sort_by_rank_perm _ _ Hs) in Hs'.
  apply list_elem_of_lookup_1 in Hs' as (p & Hp).
  assert (Hkeys : (title_key <$> rerank_from 1 sorted) !! p = Some (title_key s')).
  { rewrite rerank_from_title_key, list_lookup_fmap, Hp. done. }
  rewrite list_lookup_fmap in Hkeys.
  destruct (rerank_from 1 sorted !! p) as [m|] eqn:Hm; [|discriminate].
  injection Hkeys as Hkeys. exists m. split; [by eapply list_elem_of_lookup_2|].
  rewrite Hkeys, Hk'. symmetry. by eapply keep_movie_title_key.
Qed.

(** ** A rank that is [None] among two or more movies *)

Lemma sort_by_rank_ints l :
  Forall (fun m => exists n, rank_key m = VInt n) l ->
  exists s, sort_by_rank l = Ret s.
Proof.
  induction 1 as [|x l (n & Hx) Hl (s & Hs)]; [by eexists|].
  simpl. rewrite Hs. simpl.
  assert (Hints : Forall (fun m => exists n, rank_key m = VInt n) s).
  { by rewrite (sort_by_rank_perm _ _ Hs). }
  clear Hs. induction Hints as [|y s (k & Hy) _ (r & Hr)]; [by eexists|].
  simpl. rewrite Hx, Hy. simpl. destruct (k <? n); [|by eexists].
  rewrite Hr. by eexists.
Qed.

Lemma insert_by_rank_none x y l :
  none_or_int_rank x -> none_or_int_rank y ->
  rank_key x = VNone \/ rank_key y = VNone ->
  insert_by_rank x (y :: l) = Raise TypeError.
Proof.
  intros [Hx|(n & Hx)] [Hy|(k & Hy)] Hnone; simpl; rewrite Hx, Hy; try done.
  destruct Hnone; congruence.
Qed.

Lemma none_or_all_int l :
  Forall none_or_int_rank l ->
  Exists (fun m => rank_key m = VNone) l \/
  Forall (fun m => exists n, rank_key m = VInt n) l.
Proof.
  induction 1 as [|x l [Hx|Hx] _ [IH|IH]]; [by right|by left; constructor..| |].
  - left. by apply Exists_cons_tl.
  - right. by constructor.
Qed.

Lemma sort_by_rank_none l :
  Forall none_or_int_rank l -> (2 <= length l)%nat ->
  Exists (fun m => rank_key m = VNone) l ->
  sort_by_rank l = Raise TypeError.
Proof.
  induction l as [|x l IH]; intros Hall Hlen Hex; [simpl in Hlen; lia|].
  apply Forall_cons in Hall as [Hx Hall]. simpl.
  destruct (none_or_all_int l Hall) as [Hl|Hints].
  - destruct l as [|y [|z l]]; [by apply Exists_nil in Hl| |].
    + apply Exists_cons in Hl as [Hy|Hl]; [|by apply Exists_nil in Hl].
      apply Forall_cons in Hall as [Hy' _].
      change (insert_by_rank x [y] = Raise TypeError).
      apply insert_by_rank_none; auto.
    + rewrite IH; [done | done | simpl; lia | done].
  - assert (Hnone : rank_key x = VNone).
    { apply Exists_cons in Hex as [Hnone|Hex]; [done|]. exfalso.
      apply Exists_exists in Hex as (m & Hm & Hn). rewrite Forall_forall in Hints.
      destruct (Hints m Hm) as (n & Hi). congruence. }
    destruct (sort_by_rank_ints l Hints) as (s & Hs). rewrite Hs. simpl.
    pose proof (sort_by_rank_perm _ _ Hs) as Hp.
    destruct s as [|y s].
    { apply Permutation_nil_l in Hp. subst l. simpl in Hlen. lia. }
    apply insert_by_rank_none; [done| |by left].
    right. rewrite <- Hp in Hints. by apply Forall_cons in Hints as [? _].
Qed.

(** X4. The pass raises [TypeError] whenever two or more candidates with
    distinct titles pass the cleaning condition, their ranks are [None] or
    integers, and one of the ranks is [None]. *)
Theorem normalize_raises_on_none_rank (all_movies : list movie) :
  Forall named all_movies ->
  NoDup (title_key <$> all_movies) ->
  Forall none_or_int_rank all_movies ->
  (2 <= length all_movies)%nat ->
  Exists (fun m => rank_key m = VNone) all_movies ->
  normalize all_movies = Raise TypeError.
Proof.
  intros Hnamed Hnd Hranks Hlen Hex. unfold normalize.
  rewrite (clean_fixed [] all_movies Hnamed Hnd)
    by (intros k Hk; by apply elem_of_nil in Hk).
  simpl. by rewrite sort_by_rank_none.
Qed.

(** ** The rows of the classic table *)

Lemma int_refuses_leb d :
  (Z.of_nat (String.length d) <=? int_max_str_digits) = negb (int_refuses d).
Proof. unfold int_refuses. apply Z.leb_antisym. Qed.

Lemma int_value_digits d :
  d ≠ EmptyString -> all_chars is_digit d = true ->
  int_value d = if int_refuses d then Raise ValueError
                else Ret (VInt (int_of_digits 0 d)).
Proof.
  intros Hne Hd. rewrite (int_value_run d Hne Hd), int_refuses_leb.
  by destruct (int_refuses d).
Qed.

Lemma search_digits_int s d :
  search_digits s = Some d ->
  int_value d = if int_refuses d then Raise ValueError
                else Ret (VInt (int_of_digits 0 d)).
Proof.
  unfold search_digits.
  destruct (take_while is_digit _) as [|c r] eqn:E; [discriminate|].
  intros [= <-]. apply int_value_digits; [done|].
  rewrite <- E. apply all_chars_take_while.
Qed.

Lemma rank_prefix_int s d r :
  rank_prefix s = Some (d, r) ->
  int_value d = if int_refuses d then Raise ValueError
                else Ret (VInt (int_of_digits 0 d)).
Proof.
  unfold rank_prefix.
  destruct (take_while is_digit s) as [|c t] eqn:E; [discriminate|].
  destruct (drop_while is_digit s) as [|c' t']; [discriminate|].
  destruct (Ascii.eqb c' "."%char) eqn:Ec.
  - apply Ascii.eqb_eq in Ec as ->. intros [= <- <-].
    apply int_value_digits; [done|]. rewrite <- E. apply all_chars_take_while.
  - intros H. exfalso. revert H.
    destruct c' as [[] [] [] [] [] [] [] []]; discriminate.
Qed.

Lemma search_paren_year_int s y :
  search_paren_year s = Some y -> int_value y = Ret (VInt (int_of_digits 0 y)).
Proof.
  induction s as [|c s IH]; [discriminate|]. cbn [search_paren_year].
  destruct (if Ascii.eqb c "("%char then four_digits s else None)
    as [[y' after]|] eqn:E; [|exact IH].
  destruct after as [|c' after]; [exact IH|].
  destruct (Ascii.eqb c' ")"%char) eqn:Ec.
  - apply Ascii.eqb_eq in Ec as ->. intros [= <-].
    destruct (Ascii.eqb c "("%char); [|discriminate].
    unfold int_value. by rewrite (four_digits_int _ _ _ E).
  - intros H. revert H.
    destruct c' as [[] [] [] [] [] [] [] []]; try exact IH. done.
Qed.

Lemma year_of_shape year_elem :
  exists v, year_of year_elem = Ret v /\ (v = VNone \/ exists n, v = VInt n).
Proof.
  unfold year_of. destruct year_elem as [e|]; [|by eauto].
  destruct (search_year (get_text_strip e)) as [y|] eqn:E; [|by eauto].
  unfold int_value. rewrite (search_year_int _ _ E). simpl. eauto.
Qed.

Lemma float_or_none_shape s :
  exists v, float_or_none s = Ret v /\ (v = VNone \/ exists lit, v = VFloat lit).
Proof.
  unfold float_or_none, py_float. destruct (float_ok s); simpl; eauto.
Qed.

Lemma url_of_refused link :
  href_accepted link = false -> url_of link = Raise ValueError.
Proof.
  unfold href_accepted, url_of. destruct link as [a|]; [|discriminate].
  destruct (attr a "href") as [[|c h]|]; [discriminate| |discriminate].
  destruct (urljoin base_url (String c h)) as [u|]; [|done].
  rewrite bool_decide_eq_true_2 by eauto. discriminate.
Qed.

Lemma url_of_accepted link :
  href_accepted link = true ->
  exists u, url_of link = Ret u /\ (u = VNone \/ exists s, u = VStr s).
Proof.
  intros H. destruct (url_of_cases link) as [Hu|Hu]; [done|].
  destruct (href_accepted link) eqn:E; [|discriminate].
  exfalso. revert E Hu. unfold href_accepted, url_of.
  destruct link as [a|]; [|discriminate].
  destruct (attr a "href") as [[|c h]|]; [discriminate| |discriminate].
  destruct (urljoin base_url (String c h)) as [u|]; [discriminate|].
  intros E _. apply bool_decide_eq_true in E as [u Hu]. discriminate.
Qed.

(** The rank of a cell: the [ValueError] of [int] when the digits are
    refused, else the number they stand for, else [dflt]. *)
Lemma rank_of_spec cell dflt :
  rank_of cell dflt
  = if digits_refused cell then Raise ValueError
    else Ret match cell with
             | Some c =>
                 match search_digits (get_text_strip c) with
                 | Some d => VInt (int_of_digits 0 d)
                 | None => dflt
                 end
             | None => dflt
             end.
Proof.
  unfold rank_of, digits_refused. destruct cell as [c|]; [|done].
  destruct (search_digits (get_text_strip c)) as [d|] eqn:E; [|done].
  rewrite (search_digits_int _ _ E). by destruct (int_refuses d).
Qed.

Lemma rank_of_shape cell dflt :
  digits_refused cell = false ->
  exists v, rank_of cell dflt = Ret v /\ (v = dflt \/ exists n, v = VInt n).
Proof.
  intros H. rewrite rank_of_spec, H. eexists. split; [done|].
  destruct cell as [c|]; [|by left].
  destruct (search_digits (get_text_strip c)); eauto.
Qed.

(** The rank after the rating cell has been read, when [int] did not refuse
    its digits. *)
Lemma rating_rank cell :
  let rank := match cell with
              | Some c =>
                  match search_digits (get_text_strip c) with
                  | Some d => VInt (int_of_digits 0 d)
                  | None => VNone
                  end
              | None => VNone
              end in
  if rank_missing cell then rank = VNone \/ rank = VInt 0
  else exists n, rank = VInt n /\ n ≠ 0.
Proof.
  unfold rank_missing. destruct cell as [c|]; [|by left].
  destruct (search_digits (get_text_strip c)) as [d|]; [|by left].
  cbn zeta. destruct (Z.eqb_spec (int_of_digits 0 d) 0) as [->|Hne];
    [by right | by eexists].
Qed.

Lemma scraped_nonempty m : scraped m -> m ≠ ∅.
Proof. intros (r & t & y & g & u & -> & _). apply mk_movie_nonempty. Qed.

Lemma rating_of_row_shape row :
  exists rating,
    match find row (ByClass "td" "ratingColumn") with
    | Some rating_cell =>
        match find rating_cell (ByTag "strong") with
        | Some strong => float_or_none (get_text_strip strong)
        | None => Ret VNone
        end
    | None => Ret VNone
    end = Ret rating /\ (rating = VNone \/ exists lit, rating = VFloat lit).
Proof.
  destruct (find row (ByClass "td" "ratingColumn")) as [c|]; [|by eauto].
  destruct (find c (ByTag "strong")) as [st|]; [|by eauto].
  apply float_or_none_shape.
Qed.

(** What [extract_from_classic_row] returns: nothing for a row without a
    title cell and for a row on which [int] or [urljoin] raises, and a movie
    otherwise. *)
Lemma classic_row_result (row : element) :
  exists r, extract_from_classic_row row = Ret r /\
    (forall m, r = Some m -> scraped m) /\
    (r = None <->
       find row (ByClass "td" "titleColumn") = None \/
       digits_refused (find row (ByClass "td" "ratingColumn")) = true \/
       (exists title_cell,
          find row (ByClass "td" "titleColumn") = Some title_cell /\
          href_accepted (find title_cell (ByTag "a")) = false) \/
       (rank_missing (find row (ByClass "td" "ratingColumn")) = true /\
        digits_refused (find row (ByClass "td" "numberColumn")) = true)).
Proof.
  unfold extract_from_classic_row. rewrite rank_of_spec.
  destruct (digits_refused (find row (ByClass "td" "ratingColumn"))) eqn:Hr.
  { exists None. split; [done|]. split; [done|]. split; [|done].
    intros _. right. by left. }
  cbn [mbind res_bind].
  destruct (find row (ByClass "td" "titleColumn")) as [title_cell|] eqn:Ht.
  2: { exists None. split; [done|]. split; [done|]. split; [|done].
       intros _. by left. }
  destruct (year_of_shape (find title_cell (ByClass "span" "secondaryInfo")))
    as (year & -> & Hyear).
  cbn [mbind res_bind].
  destruct (rating_of_row_shape row) as (rating & -> & Hrating).
  cbn [mbind res_bind].
  destruct (href_accepted (find title_cell (ByTag "a"))) eqn:Hhref.
  2: { rewrite (url_of_refused _ Hhref). exists None.
       split; [done|]. split; [done|]. split; [|done].
       intros _. right. right. left. eauto. }
  destruct (url_of_accepted _ Hhref) as (url & -> & Hurl).
  cbn [mbind res_bind].
  pose proof (rating_rank (find row (ByClass "td" "ratingColumn"))) as Hrank.
  cbn zeta in Hrank.
  destruct (rank_missing (find row (ByClass "td" "ratingColumn"))) eqn:Hmiss.
  - assert (Hfall :
      forall rank, rank = VNone \/ rank = VInt 0 ->
        match rank with
        | VNone | VInt 0 => rank_of (find row (ByClass "td" "numberColumn")) rank
        | _ => Ret rank
        end = rank_of (find row (ByClass "td" "numberColumn")) rank).
    { by intros rank [->| ->]. }
    rewrite (Hfall _ Hrank), rank_of_spec.
    destruct (digits_refused (find row (ByClass "td" "numberColumn"))) eqn:Hn.
    + exists None. split; [done|]. split; [done|]. split; [|done].
      intros _. right. right. by right.
    + cbn [mbind res_bind try_except]. eexists. split; [done|]. split.
      * intros m [= <-]. do 5 eexists. split; [done|].
        split; [|done].
        destruct (find row (ByClass "td" "numberColumn")) as [c|];
          [|destruct Hrank as [->| ->]; eauto].
        destruct (search_digits (get_text_strip c));
          [by eauto | destruct Hrank as [->| ->]; eauto].
      * split; [done|].
        intros [H|[H|[(tc & Htc & H)|[_ H]]]]; try discriminate.
        injection Htc as <-. congruence.
  - destruct Hrank as (n & -> & Hn).
    assert (Hkeep :
      match VInt n with
      | VNone | VInt 0 => rank_of (find row (ByClass "td" "numberColumn")) (VInt n)
      | _ => Ret (VInt n)
      end = Ret (VInt n)).
    { by destruct n. }
    rewrite Hkeep. cbn [mbind res_bind try_except]. eexists. split; [done|]. split.
    + intros m [= <-]. do 5 eexists. split; [done|].
      repeat split; [right; by eexists | done..].
    + split; [done|].
      intros [H|[H|[(tc & Htc & H)|[H _]]]]; try discriminate.
      injection Htc as <-. congruence.
Qed.

(** X5. [extract_from_classic_row] never raises, and a movie it returns has
    the five fields.  It returns [None] exactly in these cases: the row has
    no title cell; [int] refuses the digits of the rating cell; [urljoin]
    refuses the address of the title link; the rating cell gives no rank
    other than 0 and [int] refuses the digits of the number cell. *)
Theorem classic_row_none_iff_refused (row : element) :
  exists r, extract_from_classic_row row = Ret r /\
    (forall m, r = Some m -> scraped m) /\
    (r = None <->
       find row (ByClass "td" "titleColumn") = None \/
       digits_refused (find row (ByClass "td" "ratingColumn")) = true \/
       (exists title_cell,
          find row (ByClass "td" "titleColumn") = Some title_cell /\
          href_accepted (find title_cell (ByTag "a")) = false) \/
       (rank_missing (find row (ByClass "td" "ratingColumn")) = true /\
        digits_refused (find row (ByClass "td" "numberColumn")) = true)).
Proof. apply classic_row_result. Qed.

(** X6. The rank of a row of the classic table is read from its rating cell:
    when the first run of digits in the text of that cell is a number other
    than 0, it is the rank, whatever the number cell holds.  The digits are
    taken to be few enough for [int], and the address of the title link to
    be one [urljoin] accepts. *)
Theorem classic_row_rank_from_rating_cell (row rating_cell title_cell : element)
    (d : string) :
  find row (ByClass "td" "titleColumn") = Some title_cell ->
  find row (ByClass "td" "ratingColumn") = Some rating_cell ->
  search_digits (get_text_strip rating_cell) = Some d ->
  int_of_digits 0 d ≠ 0 ->
  int_refuses d = false ->
  href_accepted (find title_cell (ByTag "a")) = true ->
  exists m, extract_from_classic_row row = Ret (Some m) /\
            m !! "rank" = Some (VInt (int_of_digits 0 d)).
Proof.
  intros Ht Hr Hd Hnz Hint Hhref. unfold extract_from_classic_row. rewrite Ht, Hr.
  unfold rank_of. rewrite Hd, (search_digits_int _ _ Hd), Hint.
  cbn [mbind res_bind].
  destruct (year_of_shape (find title_cell (ByClass "span" "secondaryInfo")))
    as (year & -> & _).
  cbn [mbind res_bind].
  assert (Hrating : exists rating,
    match find rating_cell (ByTag "strong") with
    | Some strong => float_or_none (get_text_strip strong)
    | None => Ret VNone
    end = Ret rating).
  { destruct (find rating_cell (ByTag "strong")) as [st|]; [|by eauto].
    destruct (float_or_none_shape (get_text_strip st)) as (v & -> & _). eauto. }
  destruct Hrating as (rating & ->). cbn [mbind res_bind].
  destruct (url_of_accepted _ Hhref) as (url & -> & _). cbn [mbind res_bind].
  destruct (int_of_digits 0 d) as [|p|p] eqn:E; [done| |];
    cbn [mbind res_bind try_except]; eexists; (split; [done|]);
    unfold mk_movie; by rewrite lookup_insert_eq.
Qed.

(** ** The three structures of [extract_from_classic_page] *)

Lemma for_each_invariant {A S : Type} (P : S -> Prop) (l : list A)
    (body : S -> A -> res S) (st : S) :
  P st ->
  (forall s x, P s -> exists s', body s x = Ret s' /\ P s') ->
  exists out, for_each l body st = Ret out /\ P out.
Proof.
  intros Hst Hbody. revert st Hst. induction l as [|x l IH]; intros st Hst.
  - by exists st.
  - simpl. destruct (Hbody st x Hst) as (s' & -> & Hs'). simpl. by apply IH.
Qed.

Lemma append_if_scraped movies m :
  Forall scraped movies -> scraped m -> 
  append_if movies (Some m) = movies ++ [m] /\ Forall scraped (movies ++ [m]).
Proof.
  intros Hm Hs. unfold append_if.
  rewrite bool_decide_eq_false_2 by (by apply scraped_nonempty).
  split; [done|]. apply Forall_app. split; [done|]. by constructor.
Qed.

Lemma append_if_keeps_scraped movies r :
  Forall scraped movies -> (forall m, r = Some m -> scraped m) ->
  Forall scraped (append_if movies r).
Proof.
  intros Hm Hr. destruct r as [m|]; [|done].
  by destruct (append_if_scraped movies m Hm (Hr m eq_refl)) as [-> ?].
Qed.

(** What [extract_from_container] returns: nothing when [urljoin] refuses
    the address of the title link, and otherwise a movie with the rank it is
    passed. *)
Lemma container_result container rank :
  exists r, extract_from_container container rank = Ret r /\
    (r = None <->
       href_accepted (find container (ByClass "a" "ipc-title-link-wrapper")) = false) /\
    forall m, r = Some m -> scraped m /\ m !! "rank" = Some (VInt rank).
Proof.
  unfold extract_from_container.
  destruct (year_of_shape (find container (ByClass "span" "cli-title-metadata-item")))
    as (year & -> & Hyear).
  cbn [mbind res_bind].
  assert (Hrating : exists rating,
    match find container (ByClass "span" "ipc-rating-star--rating") with
    | Some rating_elem => float_or_none (get_text_strip rating_elem)
    | None => Ret VNone
    end = Ret rating /\ (rating = VNone \/ exists lit, rating = VFloat lit)).
  { destruct (find container (ByClass "span" "ipc-rating-star--rating")); [|by eauto].
    apply float_or_none_shape. }
  destruct Hrating as (rating & -> & Hrating). cbn [mbind res_bind].
  destruct (href_accepted (find container (ByClass "a" "ipc-title-link-wrapper")))
    eqn:Hhref.
  - destruct (url_of_accepted _ Hhref) as (url & -> & Hurl).
    cbn [mbind res_bind try_except]. eexists. split; [done|]. split; [done|].
    intros m [= <-]. split; [|done].
    do 5 eexists. split; [done|]. repeat split; [by eauto|done..].
  - rewrite (url_of_refused _ Hhref). exists None. done.
Qed.

(** What [extract_from_any_row] returns for a row that [is_movie_row]
    accepts. *)
Lemma any_row_result row rank :
  is_movie_row row = true ->
  exists r, extract_from_any_row row rank = Ret r /\
    (r = None <-> href_accepted (find row (ByTitleHref "a")) = false) /\
    forall m, r = Some m -> scraped m /\ m !! "rank" = Some (VInt rank).
Proof.
  unfold is_movie_row, extract_from_any_row. intros [Hlink _]%andb_prop.
  apply bool_decide_eq_true in Hlink as [title_link ->].
  assert (Hyear : exists year,
    match search_paren_year (get_text row) with
    | Some y => int_value y
    | None => Ret VNone
    end = Ret year /\ (year = VNone \/ exists n, year = VInt n)).
  { destruct (search_paren_year (get_text row)) as [y|] eqn:E; [|by eauto].
    rewrite (search_paren_year_int _ _ E). eauto. }
  destruct Hyear as (year & -> & Hyear). cbn [mbind res_bind].
  assert (Hrating : exists rating,
    match rating_elem_of_row row with
    | Some rating_elem => float_or_none (get_text_strip rating_elem)
    | None => Ret VNone
    end = Ret rating /\ (rating = VNone \/ exists lit, rating = VFloat lit)).
  { destruct (rating_elem_of_row row); [|by eauto]. apply float_or_none_shape. }
  destruct Hrating as (rating & -> & Hrating). cbn [mbind res_bind].
  destruct (href_accepted (Some title_link)) eqn:Hhref.
  - destruct (url_of_accepted _ Hhref) as (url & -> & Hurl).
    cbn [mbind res_bind try_except]. eexists. split; [done|]. split; [done|].
    intros m [= <-]. split; [|done].
    do 5 eexists. split; [done|]. repeat split; [by eauto|done..].
  - rewrite (url_of_refused _ Hhref). exists None. done.
Qed.

Lemma classic_rows_loop rows movies :
  Forall scraped movies ->
  exists out,
    for_each rows
      (fun (movies : list movie) row =>
         movie_data ← extract_from_classic_row row;
         Ret (append_if movies movie_data)) movies = Ret out /\
    Forall scraped out.
Proof.
  intros Hm. apply for_each_invariant; [done|].
  intros s row Hs.
  destruct (classic_row_result row) as (r & -> & Hr & _).
  cbn [mbind res_bind]. eexists. split; [done|].
  by apply append_if_keeps_scraped.
Qed.

Lemma containers_loop containers start movies :
  Forall scraped movies ->
  exists out,
    for_each (enumerate start containers)
      (fun (movies : list movie) (ic : Z * element) =>
         movie_data ← extract_from_container ic.2 ic.1;
         Ret (append_if movies movie_data)) movies = Ret out /\
    Forall scraped out.
Proof.
  intros Hm. apply for_each_invariant; [done|].
  intros s [i c] Hs. cbn [fst snd].
  destruct (container_result c i) as (r & -> & _ & Hr).
  cbn [mbind res_bind]. eexists. split; [done|].
  apply append_if_keeps_scraped; [done|]. intros m Hm'. by apply Hr.
Qed.

(** The loop over all rows: a row adds a movie when [is_movie_row] accepts
    it and [urljoin] accepts the address of its link, and the movies added
    are numbered from the length of the list the loop starts with. *)
Lemma any_rows_loop rows movies :
  Forall scraped movies ->
  exists items,
    for_each rows
      (fun (movies : list movie) row =>
         if is_movie_row row then
           movie_data ← extract_from_any_row row (len movies + 1);
           Ret (append_if movies movie_data)
         else Ret movies) movies = Ret (movies ++ items) /\
    Forall scraped items /\
    length items
      = length (filter (fun row =>
                          is_movie_row row
                          && href_accepted (find row (ByTitleHref "a")) = true)
                  rows) /\
    forall j m, items !! j = Some m ->
                m !! "rank" = Some (VInt (len movies + Z.of_nat j + 1)).
Proof.
  revert movies. induction rows as [|row rows IH]; intros movies Hm.
  - exists []. rewrite app_nil_r. split; [done|]. split; [constructor|].
    split; [done|]. intros j m Hj. by rewrite lookup_nil in Hj.
  - cbn [for_each]. rewrite filter_cons.
    destruct (is_movie_row row) eqn:Hrow.
    + destruct (any_row_result row (len movies + 1) Hrow)
        as ([m|] & -> & Hnone & Hsome).
      * destruct (Hsome m eq_refl) as [Hsc Hrank].
        assert (Hhref : href_accepted (find row (ByTitleHref "a")) = true).
        { destruct (href_accepted (find row (ByTitleHref "a"))) eqn:E; [done|].
          by specialize (proj2 Hnone eq_refl). }
        cbn [mbind res_bind].
        destruct (append_if_scraped movies m Hm Hsc) as [-> Hall].
        destruct (IH _ Hall) as (items & -> & Hitems & Hlen & Hranks).
        exists (m :: items). rewrite <- app_assoc. split; [done|].
        split; [by constructor|].
        rewrite Hhref, decide_True by done. split; [simpl; by rewrite Hlen|].
        intros [|j] m' Hj; simpl in Hj.
        -- injection Hj as <-. rewrite Hrank. do 2 f_equal. lia.
        -- rewrite (Hranks _ _ Hj). do 2 f_equal. unfold len.
           rewrite length_app. simpl. lia.
      * rewrite (proj1 Hnone eq_refl). cbn [mbind res_bind append_if andb].
        rewrite decide_False by done. by apply IH.
    + cbn [mbind res_bind andb]. rewrite decide_False by done. by apply IH.
Qed.

Lemma classic_page_returns (soup : element) :
  exists out, extract_from_classic_page soup = Ret out /\ Forall scraped out.
Proof.
  unfold extract_from_classic_page.
  assert (Hclassic : exists movies,
    match find soup (ByClass "tbody" "lister-list") with
    | Some tbody =>
        for_each (find_all tbody (ByTag "tr"))
          (fun (movies : list movie) row =>
             movie_data ← extract_from_classic_row row;
             Ret (append_if movies movie_data)) []
    | None => Ret []
    end = Ret movies /\ Forall scraped movies).
  { destruct (find soup (ByClass "tbody" "lister-list")); [|by eauto].
    by apply classic_rows_loop. }
  destruct Hclassic as (movies & -> & Hmovies). cbn [mbind res_bind].
  destruct movies as [|m0 movies]; [|by eauto].
  destruct (containers_loop
              (find_all soup (ByClass "li" "ipc-metadata-list-summary-item")) 1 [])
    as (movies & -> & Hcards); [done|].
  cbn [mbind res_bind].
  destruct movies as [|m0 movies]; [|by eauto].
  destruct (any_rows_loop (find_all soup (ByTag "tr")) [])
    as (items & -> & Hitems & _); [done|].
  simpl. eauto.
Qed.

(** X7. [extract_from_classic_page] never raises, and every movie it returns
    has the five fields: a text as title, a rank that is [None] or an integer,
    a year that is [None] or an integer, a rating that is [None] or a float,
    and a link that is [None] or a text. *)
Theorem classic_page_movies_scraped (soup : element) :
  exists out, extract_from_classic_page soup = Ret out /\ Forall scraped out.
Proof. apply classic_page_returns. Qed.

(** X8. When the classic table gives no rows and the page has no
    item-summary container, the result has one movie for each row that
    [is_movie_row] accepts and whose link has an address [urljoin] accepts,
    in document order, and their ranks are 1, 2, ... without gaps, whatever
    rows lie between them. *)
Theorem any_row_fallback_ranks_dense (soup : element) :
  classic_rows soup = [] ->
  find_all soup (ByClass "li" "ipc-metadata-list-summary-item") = [] ->
  exists out,
    extract_from_classic_page soup = Ret out /\
    length out
      = length (filter (fun row =>
                          is_movie_row row
                          && href_accepted (find row (ByTitleHref "a")) = true)
                  (find_all soup (ByTag "tr"))) /\
    forall i m, out !! i = Some m -> m !! "rank" = Some (VInt (Z.of_nat i + 1)).
Proof.
  intros Hrows Hcards. unfold extract_from_classic_page.
  assert (Hclassic :
    match find soup (ByClass "tbody" "lister-list") with
    | Some tbody =>
        for_each (find_all tbody (ByTag "tr"))
          (fun (movies : list movie) row =>
             movie_data ← extract_from_classic_row row;
             Ret (append_if movies movie_data)) []
    | None => Ret []
    end = Ret []).
  { unfold classic_rows in Hrows.
    destruct (find soup (ByClass "tbody" "lister-list")); [|done].
    by rewrite Hrows. }
  rewrite Hclassic, Hcards. cbn [mbind res_bind enumerate for_each].
  destruct (any_rows_loop (find_all soup (ByTag "tr")) [])
    as (items & -> & _ & Hlen & Hranks); [done|].
  exists items. split; [done|]. split; [done|].
  intros i m Hi. by rewrite (Hranks _ _ Hi).
Qed.

(** The loop over the cards: the movies added are those of the cards whose
    link [urljoin] accepts, each with the position of its card as rank. *)
Lemma containers_positions containers start movies :
  exists items,
    for_each (enumerate start containers)
      (fun (movies : list movie) (ic : Z * element) =>
         movie_data ← extract_from_container ic.2 ic.1;
         Ret (append_if movies movie_data)) movies = Ret (movies ++ items) /\
    (.!! "rank") <$> items
      = (fun ic : Z * element => Some (VInt ic.1)) <$>
          filter (fun ic : Z * element =>
                    href_accepted (find ic.2 (ByClass "a" "ipc-title-link-wrapper"))
                    = true)
            (enumerate start containers).
Proof.
  revert start movies. induction containers as [|c cs IH]; intros start movies.
  - exists []. by rewrite app_nil_r.
  - cbn [enumerate for_each fst snd]. rewrite filter_cons. cbn [snd].
    destruct (container_result c start) as ([m|] & -> & Hnone & Hsome).
    + destruct (Hsome m eq_refl) as [Hsc Hrank].
      assert (Hhref : href_accepted (find c (ByClass "a" "ipc-title-link-wrapper"))
                      = true).
      { destruct (href_accepted (find c (ByClass "a" "ipc-title-link-wrapper")))
          eqn:E; [done|]. by specialize (proj2 Hnone eq_refl). }
      assert (Happ : append_if movies (Some m) = movies ++ [m]).
      { unfold append_if.
        by rewrite bool_decide_eq_false_2 by (by apply scraped_nonempty). }
      cbn [mbind res_bind]. rewrite Happ.
      destruct (IH (start + 1) (movies ++ [m])) as (items & -> & Hitems).
      exists (m :: items). rewrite <- app_assoc. split; [done|].
      rewrite decide_True by done. rewrite !fmap_cons. cbn [fst].
      by rewrite Hrank, Hitems.
    + rewrite (proj1 Hnone eq_refl). cbn [mbind res_bind append_if].
      rewrite decide_False by done. apply IH.
Qed.

(** X23. When the classic table gives no rows and [urljoin] accepts the
    address of the link of one card at least, the result is made of the
    movies of the cards whose link [urljoin] accepts, in document order,
    and the rank of each is the position of its card among all the cards of
    the page, counted from 1, whatever the text of the card: a card that is
    dropped leaves a gap in the ranks. *)
Theorem modern_cards_ranked_by_position (soup : element) :
  classic_rows soup = [] ->
  Exists (fun c => href_accepted (find c (ByClass "a" "ipc-title-link-wrapper")) = true)
    (find_all soup (ByClass "li" "ipc-metadata-list-summary-item")) ->
  exists out,
    extract_from_classic_page soup = Ret out /\
    (.!! "rank") <$> out
      = (fun ic : Z * element => Some (VInt ic.1)) <$>
          filter (fun ic : Z * element =>
                    href_accepted (find ic.2 (ByClass "a" "ipc-title-link-wrapper"))
                    = true)
            (enumerate 1 (find_all soup (ByClass "li" "ipc-metadata-list-summary-item"))).
Proof.
  intros Hrows Hcard. unfold extract_from_classic_page.
  assert (Hclassic :
    match find soup (ByClass "tbody" "lister-list") with
    | Some tbody =>
        for_each (find_all tbody (ByTag "tr"))
          (fun (movies : list movie) row =>
             movie_data ← extract_from_classic_row row;
             Ret (append_if movies movie_data)) []
    | None => Ret []
    end = Ret []).
  { unfold classic_rows in Hrows.
    destruct (find soup (ByClass "tbody" "lister-list")); [|done].
    by rewrite Hrows. }
  rewrite Hclassic. cbn [mbind res_bind].
  destruct (containers_positions
              (find_all soup (ByClass "li" "ipc-metadata-list-summary-item")) 1 [])
    as (items & -> & Hitems).
  cbn [mbind res_bind app].
  destruct items as [|m0 items]; [|by eauto].
  exfalso. symmetry in Hitems. apply fmap_nil_inv in Hitems.
  revert Hcard Hitems. generalize 1.
  induction (find_all soup (ByClass "li" "ipc-metadata-list-summary-item"))
    as [|c cs IH]; intros start Hcard Hnil.
  - by apply Exists_nil in Hcard.
  - cbn [enumerate] in Hnil. rewrite filter_cons in Hnil. cbn [snd] in Hnil.
    apply Exists_cons in Hcard as [Hc|Hcs].
    + by rewrite decide_True in Hnil.
    + destruct (decide _); [done|]. by eapply IH.
Qed.

(** ** The generic extractor and the selector sweep *)

Lemma generic_title_shape e selectors :
  generic_title e selectors = "Unknown" \/
  (2 <= String.length (generic_title e selectors))%nat.
Proof.
  induction selectors as [|sel rest IH]; [by left|]. simpl.
  destruct (select_one e sel) as [t|]; [|done].
  destruct (Nat.ltb_spec 1 (String.length (sub_rank_prefix (get_text_strip t))));
    [right; lia | done].
Qed.

Lemma generic_year_shape e selectors :
  exists v, generic_year e selectors = Ret v /\ (v = VNone \/ exists n, v = VInt n).
Proof.
  induction selectors as [|sel rest IH]; [by eauto|]. simpl.
  destruct (select_one e sel) as [t|]; [|done].
  destruct (search_year (get_text_strip t)) as [y|] eqn:E; [|done].
  unfold int_value. rewrite (search_year_int _ _ E). simpl. eauto.
Qed.

Lemma generic_rating_shape e selectors :
  exists v, generic_rating e selectors = Ret v /\
            (v = VNone \/ exists lit, v = VFloat lit).
Proof.
  induction selectors as [|sel rest IH]; [by eauto|]. simpl.
  destruct (select_one e sel) as [t|]; [|done].
  unfold py_float. destruct (float_ok (get_text_strip t)); simpl; eauto.
Qed.

(** What [extract_movie_data_generic] returns: nothing when [urljoin]
    refuses the address of the title link or [int] the digits of the rank
    prefix, and a movie otherwise. *)
Lemma generic_movie (e : element) (rank : Z) :
  exists r,
    extract_movie_data_generic e rank = Ret r /\
    (r = None <->
       href_accepted (select_one e title_link_selector) = false \/
       exists d, leading_rank (strip (get_text e)) = Some d /\
                 int_refuses d = true) /\
    forall m, r = Some m ->
      scraped m /\
      m !! "rank" = Some (VInt match leading_rank (strip (get_text e)) with
                               | Some d => int_of_digits 0 d
                               | None => rank
                               end) /\
      exists title, m !! "title" = Some (VStr title) /\
                    (title = "Unknown" \/ (2 <= String.length title)%nat).
Proof.
  unfold extract_movie_data_generic.
  destruct (generic_year_shape e year_selectors) as (year & -> & Hyear).
  destruct (generic_rating_shape e rating_selectors) as (rating & -> & Hrating).
  cbn [mbind res_bind].
  destruct (href_accepted (select_one e title_link_selector)) eqn:Hhref.
  2: { rewrite (url_of_refused _ Hhref). exists None.
       split; [done|]. split; [|done]. split; [by left | done]. }
  destruct (url_of_accepted _ Hhref) as (url & -> & Hurl). cbn [mbind res_bind].
  assert (Hrank :
    match leading_rank (strip (get_text e)) with
    | Some d => int_value d
    | None => Ret (VInt rank)
    end
    = match leading_rank (strip (get_text e)) with
      | Some d => if int_refuses d then Raise ValueError
                  else Ret (VInt (int_of_digits 0 d))
      | None => Ret (VInt rank)
      end).
  { unfold leading_rank.
    destruct (rank_prefix (strip (get_text e))) as [[d r]|] eqn:E; [|done].
    by eapply rank_prefix_int. }
  rewrite Hrank.
  destruct (leading_rank (strip (get_text e))) as [d|].
  - destruct (int_refuses d) eqn:Hd.
    + exists None. split; [done|]. split; [|done]. split; [|done].
      intros _. right. by exists d.
    + cbn [mbind res_bind try_except]. eexists. split; [done|]. split.
      * split; [done|]. intros [H|(d' & [= <-] & H)]; congruence.
      * intros m [= <-]. split; [|split; [done|]].
        -- do 5 eexists. split; [done|]. repeat split; [by eauto|done..].
        -- exists (generic_title e title_selectors). split; [reflexivity|].
           apply generic_title_shape.
  - cbn [mbind res_bind try_except]. eexists. split; [done|]. split.
    + split; [done|]. intros [H|(d' & H & _)]; discriminate.
    + intros m [= <-]. split; [|split; [done|]].
      * do 5 eexists. split; [done|]. repeat split; [by eauto|done..].
      * exists (generic_title e title_selectors). split; [reflexivity|].
        apply generic_title_shape.
Qed.

(** X9. [extract_movie_data_generic] never raises.  It returns [None]
    exactly when [urljoin] refuses the address of the title link or [int]
    refuses the digits of the rank prefix, and otherwise a movie with the
    five fields.  The rank of the movie is the number the stripped text of
    the element starts with, when that text starts with digits followed by a
    dot, and otherwise the position it is passed; its title is "Unknown" or
    has at least two characters. *)
Theorem generic_rank_from_text (e : element) (rank : Z) :
  exists r,
    extract_movie_data_generic e rank = Ret r /\
    (r = None <->
       href_accepted (select_one e title_link_selector) = false \/
       exists d, leading_rank (strip (get_text e)) = Some d /\
                 int_refuses d = true) /\
    forall m, r = Some m ->
      scraped m /\
      m !! "rank" = Some (VInt match leading_rank (strip (get_text e)) with
                               | Some d => int_of_digits 0 d
                               | None => rank
                               end) /\
      exists title, m !! "title" = Some (VStr title) /\
                    (title = "Unknown" \/ (2 <= String.length title)%nat).
Proof. apply generic_movie. Qed.

(** A movie the sweep keeps. *)
Lemma sweep_body_keeps movies (ie : Z * element) :
  Forall titled movies ->
  exists movies',
    (movie_data ← extract_movie_data_generic ie.2 ie.1;
     append_if_titled movies movie_data) = Ret movies' /\
    Forall titled movies'.
Proof.
  intros Hm.
  destruct (generic_movie ie.2 ie.1) as ([m|] & -> & _ & Hsome);
    cbn [mbind res_bind]; [|by eauto].
  destruct (Hsome m eq_refl) as (Hsc & Hrank & t & Ht & Hlen).
  unfold append_if_titled.
  rewrite bool_decide_eq_false_2 by (by apply scraped_nonempty).
  rewrite Ht. cbn [ne_unknown].
  destruct (String.eqb_spec t "Unknown") as [->|Hne]; simpl; [by eauto|].
  eexists. split; [done|]. apply Forall_app. split; [done|].
  constructor; [|done]. split; [done|]. split; [by eauto|].
  exists t. split; [done|]. split; [done|]. by destruct Hlen.
Qed.

Lemma sweep_keeps_titled soup selectors movies :
  Forall titled movies ->
  exists out, sweep soup movies selectors = Ret out /\
    Forall titled out.
Proof.
  revert movies. induction selectors as [|sel rest IH]; intros movies Hm; [by eauto|].
  cbn [sweep]. destruct (select soup sel) as [|e es]; [by apply IH|].
  destruct (for_each_invariant
              (Forall titled)
              (enumerate 1 (e :: es))
              (fun movies ie =>
                 movie_data ← extract_movie_data_generic ie.2 ie.1;
                 append_if_titled movies movie_data) movies Hm)
    as (movies' & -> & Hm').
  { intros s x Hs. by apply sweep_body_keeps. }
  cbn [mbind res_bind]. destruct (50 <? len movies'); [by eauto | by apply IH].
Qed.

Lemma parse_html_returns (soup : element) :
  exists out, parse_html_for_movies soup = Ret out /\
    Forall titled out.
Proof.
  unfold parse_html_for_movies.
  destruct (sweep_keeps_titled soup sweep_selectors []) as (out & -> & Hout);
    [constructor|]. by exists out.
Qed.

(** X10. [parse_html_for_movies] never raises, and every movie it returns
    has the five fields, an integer rank, and a title that is not "Unknown"
    and has at least two characters. *)
Theorem sweep_movies_titled (soup : element) :
  exists out, parse_html_for_movies soup = Ret out /\
    Forall titled out.
Proof. apply parse_html_returns. Qed.

(** ** The embedded-script hypothesis at its thresholds *)

Lemma embedded_patterns_few script keys :
  Forall (fun key => (length (findall (match_quoted key) script) <= 50)%nat) keys ->
  embedded_patterns script [] keys = Ret [].
Proof.
  induction 1 as [|key keys Hkey _ IH]; [done|]. cbn [embedded_patterns].
  rewrite len_gt_50, bool_decide_eq_false_2 by lia. exact IH.
Qed.

(** X11. A script in which each of the three title patterns has at most 50
    matches gives no movie at all: 50 titles are not enough. *)
Theorem embedded_json_needs_more_than_50 (script_content : string) :
  Forall (fun key =>
            (length (findall (match_quoted key) script_content) <= 50)%nat)
    title_keys ->
  extract_from_embedded_json script_content = Ret [].
Proof.
  intros H. unfold extract_from_embedded_json.
  by rewrite embedded_patterns_few.
Qed.

Lemma embedded_patterns_bounded script keys out :
  embedded_patterns script [] keys = Ret out -> (length out <= 250)%nat.
Proof.
  induction keys as [|key keys IH]; simpl; intros H.
  - injection H as <-. simpl. lia.
  - destruct (50 <? len (findall (match_quoted key) script)); [|by apply IH].
    inv_bind H. apply embedded_loop_inv in Ha as (items & -> & Hlen & _).
    simpl in H. destruct items as [|m0 items]; [by apply IH|].
    injection H as <-. rewrite Hlen, length_take. lia.
Qed.

Lemma for_each_modelled {A S : Type} (l : list A) (body : S -> A -> res S) (st : S) :
  (forall s x, body s x ≠ Unmodelled) -> for_each l body st ≠ Unmodelled.
Proof.
  intros Hbody. revert st. induction l as [|x l IH]; intros st; [done|].
  cbn [for_each]. specialize (Hbody st x).
  destruct (body st x) as [s'| |]; [apply IH|done..].
Qed.

Lemma int_value_modelled d : int_value d ≠ Unmodelled.
Proof.
  unfold int_value, py_int. destruct d; [done|].
  by destruct (all_chars is_digit _ && _).
Qed.

Lemma embedded_movie_modelled years ratings movies it :
  embedded_movie years ratings movies it ≠ Unmodelled.
Proof.
  unfold embedded_movie.
  destruct (years !! Z.to_nat it.1) as [y|].
  - pose proof (int_value_modelled y) as Hy.
    destruct (int_value y); [|done..]. cbn [mbind res_bind].
    destruct (ratings !! Z.to_nat it.1) as [r|]; [|done].
    unfold py_float. by destruct (float_ok r).
  - cbn [mbind res_bind].
    destruct (ratings !! Z.to_nat it.1) as [r|]; [|done].
    unfold py_float. by destruct (float_ok r).
Qed.

Lemma embedded_patterns_modelled script keys movies :
  embedded_patterns script movies keys ≠ Unmodelled.
Proof.
  revert movies. induction keys as [|key keys IH]; intros movies; [done|].
  cbn [embedded_patterns].
  destruct (50 <? len (findall (match_quoted key) script)); [|apply IH].
  pose proof (for_each_modelled
                (enumerate 0 (take 250 (findall (match_quoted key) script)))
                (embedded_movie (findall match_release_year script)
                   (findall match_rating_value script)) movies
                (embedded_movie_modelled _ _)) as Hloop.
  destruct (for_each _ _ movies) as [[|m0 ms]| |]; [apply IH|done..].
Qed.

Lemma embedded_json_returns script :
  exists out, extract_from_embedded_json script = Ret out /\ (length out <= 250)%nat.
Proof.
  unfold extract_from_embedded_json.
  pose proof (embedded_patterns_modelled script title_keys []) as Hm.
  destruct (embedded_patterns script [] title_keys) as [out|e|] eqn:E; [| |done].
  - exists out. split; [done|]. by eapply embedded_patterns_bounded.
  - exists []. split; [done|]. simpl. lia.
Qed.

(** X12. Whatever the script text is and whether or not [float] accepts the
    ratings found, [extract_from_embedded_json] returns a list, and the list
    has at most 250 movies. *)
Theorem embedded_json_at_most_250 (script_content : string) :
  exists out, extract_from_embedded_json script_content = Ret out /\
              (length out <= 250)%nat.
Proof. apply embedded_json_returns. Qed.

(** ** The page parser *)

Lemma ld_item_modelled movies item : ld_item movies item ≠ Unmodelled.
Proof.
  unfold ld_item. destruct item as [| | | | |l|entry]; cbn [has_item mbind res_bind];
    try done.
  - by destruct (contains "item" s).
  - by destruct (existsb _ l).
  - destruct (bool_decide (is_Some (entry !! "item"))); [|done].
    destruct (entry !! "item") as [[| | | | | |info]|]; try done.
    destruct (default (VDict ∅) (info !! "aggregateRating")); try done.
    cbn [mbind res_bind].
    destruct (info !! "datePublished") as [[| | | |date| |]|]; try done.
    destruct (search_year date) as [y|]; [|done].
    pose proof (int_value_modelled y). by destruct (int_value y).
Qed.

Lemma ld_block_modelled movies data : ld_block movies data ≠ Unmodelled.
Proof.
  unfold ld_block. destruct data as [| | | | | |d]; try done.
  destruct (d !! "itemListElement") as [items|]; [|done].
  destruct (iterate items) as [l| |] eqn:E; cbn [mbind res_bind]; [|done|].
  - apply for_each_modelled. apply ld_item_modelled.
  - by destruct items.
Qed.

Lemma ld_scripts_modelled movies scripts : ld_scripts movies scripts ≠ Unmodelled.
Proof.
  revert movies. induction scripts as [|script rest IH]; intros movies; [done|].
  cbn [ld_scripts]. destruct (el_string script) as [text|]; [|done].
  destruct (json_loads text) as [data|]; [|apply IH].
  pose proof (ld_block_modelled movies data).
  destruct (ld_block movies data) as [movies'| |]; [|done..].
  cbn [mbind res_bind]. destruct (100 <=? len movies'); [done|apply IH].
Qed.

Lemma embedded_script_returns movies script :
  exists out, embedded_script movies script = Ret out.
Proof.
  unfold embedded_script. destruct (el_string script) as [[|c s]|]; [by eauto| |by eauto].
  destruct (_ || _); [|by eauto].
  destruct (embedded_json_returns (String c s)) as (out & -> & _). by eexists.
Qed.

Lemma any_page_returns soup :
  exists out, extract_movies_from_any_page soup = Ret out.
Proof.
  unfold extract_movies_from_any_page.
  pose proof (ld_scripts_modelled []
                (find_all soup (ByType "script" "application/ld+json"))) as Hld.
  destruct (ld_scripts [] _) as [[movies|movies]|e|]; [by eauto| |by eauto|done].
  cbn [mbind res_bind].
  destruct (for_each_invariant (fun _ => True) (find_all soup (ByTag "script"))
              embedded_script movies I) as (movies' & -> & _).
  { intros s x _. destruct (embedded_script_returns s x) as (o & ->). eauto. }
  cbn [mbind res_bind]. destruct (len movies' <? 100); [|by eauto].
  destruct (parse_html_returns soup) as (html & -> & _). by eexists.
Qed.


Lemma ld_scripts_app_undecodable movies pre scripts :
  Forall (fun s => exists text, el_string s = Some text /\ json_loads text = None) pre ->
  ld_scripts movies (pre ++ scripts) = ld_scripts movies scripts.
Proof.
  induction 1 as [|s pre (text & Hs & Hj) _ IH]; [done|].
  simpl. by rewrite Hs, Hj.
Qed.

(** X13. A structured-data script tag without text makes the page parser
    return the empty list, whatever the embedded scripts and the markup of
    the page hold: [json.loads] is given [None], and the error is caught only
    by the outermost handler.  (The structured-data scripts before it are
    taken to be undecodable, which skips them.) *)
Theorem page_parser_script_without_text (soup script : element)
    (pre rest : list element) :
  find_all soup (ByType "script" "application/ld+json") = pre ++ script :: rest ->
  Forall (fun s => exists text, el_string s = Some text /\ json_loads text = None) pre ->
  el_string script = None ->
  extract_movies_from_any_page soup = Ret [].
Proof.
  intros Hfind Hpre Hnone. unfold extract_movies_from_any_page.
  rewrite Hfind, (ld_scripts_app_undecodable _ _ _ Hpre).
  cbn [ld_scripts]. by rewrite Hnone.
Qed.

Lemma for_each_raises {A S : Type} (l : list A) (body : S -> A -> res S) (st : S)
    (bad : A) :
  bad ∈ l ->
  (forall s x, body s x ≠ Unmodelled) ->
  (forall s, exists e, body s bad = Raise e) ->
  exists e, for_each l body st = Raise e.
Proof.
  intros Hin Hmod Hbad. revert st.
  induction l as [|x l IH]; intros st; [by apply elem_of_nil in Hin|].
  cbn [for_each]. apply elem_of_cons in Hin as [<-|Hin].
  - destruct (Hbad st) as (e & ->). by exists e.
  - specialize (Hmod st x). destruct (body st x) as [s'|e|]; [|by exists e|done].
    by apply IH.
Qed.

(** X14. A list entry whose [item] is not an object (a link given as a text,
    for one) makes the page parser return the empty list, whatever else the
    page holds: reading the name from it fails, and the error is caught only
    by the outermost handler. *)
Theorem page_parser_item_not_object (soup first : element) (rest : list element)
    (text : string) (d entry : gmap string value) (entries : list value)
    (v : value) :
  find_all soup (ByType "script" "application/ld+json") = first :: rest ->
  el_string first = Some text ->
  json_loads text = Some (VDict d) ->
  d !! "itemListElement" = Some (VList entries) ->
  VDict entry ∈ entries ->
  entry !! "item" = Some v ->
  (forall info, v ≠ VDict info) ->
  extract_movies_from_any_page soup = Ret [].
Proof.
  intros Hfind Hstr Hjson Hlist Hin Hitem Hv. unfold extract_movies_from_any_page.
  rewrite Hfind. cbn [ld_scripts]. rewrite Hstr, Hjson. cbn [ld_block].
  rewrite Hlist. cbn [iterate mbind res_bind].
  destruct (for_each_raises entries ld_item [] (VDict entry) Hin ld_item_modelled)
    as (e & ->); [|done].
  intros s. unfold ld_item. cbn [has_item mbind res_bind]. rewrite Hitem.
  rewrite bool_decide_eq_true_2 by eauto.
  destruct v as [| | | | | |info]; try by eexists.
  by destruct (Hv info).
Qed.


(** ** Requests *)

(** X16. [get_page_with_retries] makes at most three requests: it returns the
    page of the first of them that succeeds, and [None] only after three
    failures in a row. *)
Theorem get_page_with_retries_three_attempts (url : string) (w w' : world)
    (r : option element) :
  get_page_with_retries url w = (r, w') ->
  match r with
  | Some page =>
      session_get url w = (Some page, w') \/
      (exists w1, session_get url w = (None, w1) /\
                  session_get url w1 = (Some page, w')) \/
      (exists w1 w2, session_get url w = (None, w1) /\
                     session_get url w1 = (None, w2) /\
                     session_get url w2 = (Some page, w'))
  | None =>
      exists w1 w2, session_get url w = (None, w1) /\
                    session_get url w1 = (None, w2) /\
                    session_get url w2 = (None, w')
  end.
Proof.
  unfold get_page_with_retries. cbn [get_page_attempts].
  destruct (session_get url w) as [[p1|] w1] eqn:E1.
  { intros [= <- <-]. by left. }
  destruct (session_get url w1) as [[p2|] w2] eqn:E2.
  { intros [= <- <-]. right. left. eauto. }
  destruct (session_get url w2) as [[p3|] w3] eqn:E3.
  { intros [= <- <-]. right. right. eauto. }
  intros [= <- <-]. eauto.
Qed.

Lemma get_page_attempts_down (retries : nat) (url : string) (w : world) :
  (forall u w0, (session_get u w0).1 = None) ->
  (get_page_attempts retries url w).1 = None.
Proof.
  intros Hdown. revert w. induction retries as [|k IH]; intros w; [done|].
  cbn [get_page_attempts]. specialize (Hdown url w).
  destruct (session_get url w) as [[p|] w1]; [done|]. apply IH.
Qed.

(** X17. When every request fails, [get_additional_details] returns the
    record of the three placeholders, without raising. *)
Theorem details_when_network_down (movie_url : string) (w : world) :
  (forall u w0, (session_get u w0).1 = None) ->
  (get_additional_details movie_url w).1 = Ret unknown_details.
Proof.
  intros Hdown. unfold get_additional_details, get_page_with_retries.
  pose proof (get_page_attempts_down 3 movie_url w Hdown) as H.
  destruct (get_page_attempts 3 movie_url w) as [[p|] w1]; [done|]. done.
Qed.

(** ** The stages *)

Lemma classic_variants_result urls w :
  exists l, (classic_variants urls w).1 = Ret l /\ (l = [] \/ (50 < length l)%nat).
Proof.
  revert w. induction urls as [|url rest IH]; intros w; [by eauto|].
  cbn [classic_variants].
  destruct (get_page_with_retries url w) as [[soup|] w1]; [|apply IH].
  destruct (classic_page_returns soup) as (movies & -> & _).
  destruct (Z.ltb_spec 50 (len movies)); [|apply IH].
  exists movies. split; [done|]. right. unfold len in *. lia.
Qed.

(** X18. [try_classic_imdb_page] never raises, and what it returns is either
    the empty list or a list of more than 50 movies: a page that gives 50
    movies or fewer is passed over, also when no other address gives more. *)
Theorem try_classic_empty_or_more_than_50 (w : world) :
  exists l, (try_classic_imdb_page' w).1 = Ret l /\
            (l = [] \/ (50 < length l)%nat).
Proof.
  unfold try_classic_imdb_page'.
  destruct (classic_variants_result classic_urls w) as (l & Hl & Hlen).
  destruct (classic_variants classic_urls w) as [r w1]. simpl in Hl. subst r.
  by exists l.
Qed.

(** X19. In [try_paginated_requests] a request that raises discards what the
    earlier requests have given: when the first two requests are answered and
    the third raises, the result is the empty list. *)
Theorem try_paginated_discards_on_error (w w1 w2 w3 : world)
    (status1 status2 : Z) (page1 page2 : element) (e : exn) :
  http_get (Request "https://www.imdb.com/chart/top/"
              [("start", 1); ("count", 250)] false) w
    = (inr (status1, page1), w1) ->
  http_get (Request "https://www.imdb.com/chart/top/"
              [("page", 1); ("per_page", 250)] false) w1
    = (inr (status2, page2), w2) ->
  http_get (Request "https://www.imdb.com/chart/top/"
              [("offset", 0); ("limit", 250)] false) w2
    = (inl e, w3) ->
  try_paginated_requests' w = (Ret [], w3).
Proof.
  intros H1 H2 H3. unfold try_paginated_requests', base_params.
  cbn [paginated_variants]. rewrite H1.
  destruct (classic_page_returns page1) as (l1 & -> & _).
  assert (Hrest : forall movies,
    (let '(r, w) :=
       paginated_variants
         [[("page", 1); ("per_page", 250)]; [("offset", 0); ("limit", 250)]]
         movies w1 in
     (try_except r (fun _ => Ret []), w)) = (Ret [], w3)).
  { intros movies. cbn [paginated_variants]. rewrite H2.
    destruct (classic_page_returns page2) as (l2 & -> & _).
    destruct (status2 =? 200); by rewrite H3. }
  destruct (status1 =? 200); apply Hrest.
Qed.

(** ** Candidate lists on which the normalisation pass returns *)

Lemma titled_plain m : titled m -> plain_fields m.
Proof.
  intros (_ & (n & Hn) & t & Ht & _). split; [eauto|].
  exists n. unfold rank_key. by rewrite Hn.
Qed.

Lemma embedded_patterns_plain script keys out :
  embedded_patterns script [] keys = Ret out -> Forall plain_fields out.
Proof.
  induction keys as [|key keys IH]; simpl; intros H.
  - injection H as <-. constructor.
  - destruct (50 <? len (findall (match_quoted key) script)); [|by apply IH].
    inv_bind H. apply embedded_loop_inv in Ha as (items & -> & _ & Hitems).
    simpl in H. destruct items as [|m0 items]; [by apply IH|].
    injection H as <-. apply Forall_forall. intros m Hm.
    apply list_elem_of_lookup_1 in Hm as (j & Hj).
    destruct (Hitems _ _ Hj) as (t & _ & y & r & -> & _).
    split; [right; right; by exists t|]. by eexists.
Qed.

(** X20. The normalisation pass returns, without raising, on every list of
    the selector sweep and on every list of the embedded-script hypothesis:
    their movies have a text as title and an integer as rank. *)
Theorem normalize_returns_on_sweep_and_embedded (soup : element)
    (script_content : string) (l : list movie) :
  parse_html_for_movies soup = Ret l \/
    extract_from_embedded_json script_content = Ret l ->
  exists out, normalize l = Ret out.
Proof.
  intros [H|H]; apply normalize_returns.
  - destruct (parse_html_returns soup) as (out & Hout & Ht).
    rewrite Hout in H. injection H as <-.
    eapply Forall_impl; [exact Ht|]. apply titled_plain.
  - unfold extract_from_embedded_json in H.
    destruct (embedded_patterns script_content [] title_keys) as [o|e|] eqn:E;
      simpl in H; [| |discriminate].
    + injection H as <-. by eapply embedded_patterns_plain.
    + injection H as <-. constructor.
Qed.

(** ** The stages when no request succeeds *)

Lemma classic_variants_down urls w :
  (forall u w0, (session_get u w0).1 = None) ->
  (classic_variants urls w).1 = Ret [].
Proof.
  intros Hdown. revert w. induction urls as [|url rest IH]; intros w; [done|].
  cbn [classic_variants]. unfold get_page_with_retries.
  pose proof (get_page_attempts_down 3 url w Hdown) as H.
  destruct (get_page_attempts 3 url w) as [[p|] w1]; [done|]. apply IH.
Qed.

Lemma try_classic_down w :
  (forall u w0, (session_get u w0).1 = None) ->
  (as_stage try_classic_imdb_page' w).1 = [].
Proof.
  intros Hdown. unfold as_stage, try_classic_imdb_page'.
  pose proof (classic_variants_down classic_urls w Hdown) as H.
  destruct (classic_variants classic_urls w) as [r w1]. simpl in H. by subst r.
Qed.

Lemma try_paginated_down w :
  (forall q w0, exists e, (http_get q w0).1 = inl e) ->
  (as_stage try_paginated_requests' w).1 = [].
Proof.
  intros Hdown. unfold as_stage, try_paginated_requests', base_params.
  cbn [paginated_variants].
  destruct (Hdown (Request "https://www.imdb.com/chart/top/"
                     [("start", 1); ("count", 250)] false) w) as (e & He).
  destruct (http_get _ w) as [r w1]. simpl in He. by subst r.
Qed.

Lemma try_mobile_down w :
  (forall q w0, exists e, (http_get q w0).1 = inl e) ->
  (as_stage try_mobile_and_alternative_endpoints' w).1 = [].
Proof.
  intros Hdown. unfold as_stage, try_mobile_and_alternative_endpoints', endpoints.
  cbn [endpoint_variants]. unfold endpoint_page at 1.
  change (contains "m.imdb.com" "https://m.imdb.com/chart/top/") with true.
  cbv iota.
  destruct (Hdown (Request "https://m.imdb.com/chart/top/" [] true) w) as (e & He).
  destruct (http_get _ w) as [r w1]. simpl in He. by subst r.
Qed.

(** X22. In [try_mobile_and_alternative_endpoints] the mobile address is
    requested once, without retries, and when that request raises the stage
    returns the empty list at once: the three other addresses are not
    requested. *)
Theorem try_mobile_stops_when_mobile_request_raises (w w1 : world) (e : exn) :
  http_get (Request "https://m.imdb.com/chart/top/" [] true) w = (inl e, w1) ->
  try_mobile_and_alternative_endpoints' w = (Ret [], w1).
Proof.
  intros H. unfold try_mobile_and_alternative_endpoints', endpoints.
  cbn [endpoint_variants]. unfold endpoint_page at 1.
  change (contains "m.imdb.com" "https://m.imdb.com/chart/top/") with true.
  cbv iota. rewrite H. reflexivity.
Qed.

End Scraper.

(** * The properties at concrete inputs *)

(** The invariants on [sample_candidates]. *)
Lemma normalize_invariants_witness :
  normalize sample_candidates = Ret sample_normalized /\
  ((.!! "rank") <$> sample_normalized
     = (fun i => Some (VInt i)) <$> seqZ 1 (Z.of_nat (length sample_normalized)) /\
   NoDup ((.!! "title") <$> sample_normalized) /\
   Forall (fun m => m !! "title" ≠ Some (VStr "Unknown")) sample_normalized /\
   (length sample_normalized <= 250)%nat).
Proof.
  split; [reflexivity | apply (normalize_invariants sample_candidates); reflexivity].
Defined.

(** A second pass over the normalised sample changes nothing. *)
Lemma normalize_idempotent_witness :
  normalize sample_candidates = Ret sample_normalized /\
  normalize sample_normalized = Ret sample_normalized.
Proof.
  split; [reflexivity | apply (normalize_idempotent sample_candidates); reflexivity].
Defined.

(** Stages returning 120, 80 and no movies: all three are run, and the list
    of 120 is chosen. *)
Lemma select_candidates_longest_witness :
  select_candidates unit (stage_of 120) (stage_of 80) (stage_of 0) tt
    = (replicate 120 (plain_movie "Heat" 1), tt) /\
  first_longest
    [replicate 120 (plain_movie "Heat" 1); replicate 80 (plain_movie "Heat" 1); []]
    (select_candidates unit (stage_of 120) (stage_of 80) (stage_of 0) tt).1 /\
  (select_candidates unit (stage_of 120) (stage_of 80) (stage_of 0) tt).2 = tt.
Proof.
  split; [reflexivity|].
  apply (select_candidates_longest unit (stage_of 120) (stage_of 80) (stage_of 0)
           tt tt tt tt
           (replicate 120 (plain_movie "Heat" 1))
           (replicate 80 (plain_movie "Heat" 1)) []);
    reflexivity.
Defined.



(** 60 titles and 55 years in [sample_script]. *)
Lemma embedded_json_pairs_by_position_witness :
  matched_titles sample_script = Some (replicate 55 "Heat" ++ replicate 5 "Ran") /\
  length (findall match_release_year sample_script) = 55%nat /\
  exists out,
    extract_from_embedded_json any_float sample_script = Ret out /\
    length out = Nat.min (length (replicate 55 "Heat" ++ replicate 5 "Ran")) 250 /\
    (length out <= 250)%nat /\
    forall i m, out !! i = Some m ->
      m !! "title" = VStr <$> (replicate 55 "Heat" ++ replicate 5 "Ran") !! i /\
      ((length (findall match_release_year sample_script) <= i)%nat ->
       m !! "year" = Some VNone) /\
      ((length (findall match_rating_value sample_script) <= i)%nat ->
       m !! "rating" = Some VNone).
Proof.
  split; [reflexivity|]. split; [reflexivity|].
  apply (embedded_json_pairs_by_position any_float sample_script);
    [intros; reflexivity | reflexivity].
Defined.

(** A detail page without director, runtime and genres. *)
Lemma details_default_to_unknown_witness :
  get_page_with_retries unit (fetch_leaf "A film.") "/title/tt0113277/" tt
    = (Some (leaf "A film."), tt) /\
  Forall (fun sel => select_one (leaf "A film.") sel = None) director_selectors /\
  exists d,
    (get_additional_details unit (fetch_leaf "A film.") "/title/tt0113277/" tt).1 = Ret d /\
    d !! "director" = Some (VStr "Unknown") /\
    (search_minutes (get_text (leaf "A film.")) = None ->
     d !! "runtime_minutes" = Some VNone) /\
    (Forall (fun sel => select (leaf "A film.") sel = []) genre_selectors ->
     d !! "genres" = Some (VStr "Unknown")).
Proof.
  split; [reflexivity|]. split; [repeat constructor|].
  apply (details_default_to_unknown unit (fetch_leaf "A film.") "/title/tt0113277/"
           tt tt (leaf "A film."));
    [reflexivity | repeat constructor].
Defined.

(** The last of the 60 items of [sample_script]. *)
Lemma embedded_json_rank_and_url_witness :
  extract_from_embedded_json any_float sample_script = Ret sample_script_movies /\
  sample_script_movies !! 59%nat = Some (plain_movie "Ran" 60) /\
  plain_movie "Ran" 60 !! "url" = Some VNone /\
  plain_movie "Ran" 60 !! "rank" = Some (VInt (Z.of_nat 59 + 1)).
Proof.
  split; [reflexivity|]. split; [reflexivity|].
  apply (embedded_json_rank_and_url any_float sample_script sample_script_movies 59);
    reflexivity.
Defined.

(** * Further properties: the whole run, and concrete inputs *)

(** X21. When no request succeeds (the requests with retries fail and the
    others raise), [scrape_top250], run with the three stages of the source,
    returns the empty list and does not raise. *)
Theorem scrape_top250_network_down
    (urljoin : string -> string -> option string) (float_ok : string -> bool)
    (json_loads : string -> option value) (world : Type)
    (session_get : string -> world -> option element * world)
    (http_get : request -> world -> (exn + Z * element) * world)
    (status_code : element -> Z) (w : world) :
  (forall u w0, (session_get u w0).1 = None) ->
  (forall q w0, exists e, (http_get q w0).1 = inl e) ->
  (scrape_top250 world
     (as_stage world (try_classic_imdb_page' urljoin float_ok world session_get))
     (as_stage world (try_paginated_requests' urljoin float_ok world http_get))
     (as_stage world
        (try_mobile_and_alternative_endpoints' urljoin float_ok json_loads world
           session_get http_get status_code))
     w).1 = Ret [].
Proof.
  intros Hget Hraw. unfold scrape_top250, select_candidates.
  pose proof (try_classic_down urljoin float_ok world session_get w Hget) as H1.
  destruct (as_stage world (try_classic_imdb_page' _ _ _ _) w) as [l1 w1].
  simpl in H1. subst l1.
  pose proof (try_paginated_down urljoin float_ok world http_get w1 Hraw) as H2.
  change (len (@nil movie) <? len (@nil movie)) with false. cbv iota.
  change (len (@nil movie) <? 200) with true. cbv iota.
  destruct (as_stage world (try_paginated_requests' _ _ _ _) w1) as [l2 w2].
  simpl in H2. subst l2.
  pose proof (try_mobile_down urljoin float_ok json_loads world session_get
                http_get status_code w2 Hraw) as H3.
  change (len (@nil movie) <? len (@nil movie)) with false. cbv iota.
  change (len (@nil movie) <? 200) with true. cbv iota.
  destruct (as_stage world (try_mobile_and_alternative_endpoints' _ _ _ _ _ _ _) w2)
    as [l3 w3].
  simpl in H3. subst l3. reflexivity.
Qed.

(** The third movie of the normalised sample is the first "Heat" of the
    candidates. *)
Lemma normalize_keeps_first_occurrence_witness :
  normalize sample_candidates = Ret sample_normalized /\
  sample_normalized !! 2%nat = Some (plain_movie "Heat" 3) /\
  exists j s,
    sample_candidates !! j = Some s /\
    plain_movie "Heat" 3 = <["rank" := VInt (Z.of_nat 2 + 1)]> s /\
    forall j' s', (j' < j)%nat -> sample_candidates !! j' = Some s' ->
                  s' !! "title" ≠ s !! "title".
Proof.
  split; [reflexivity|]. split; [reflexivity|].
  apply (normalize_keeps_first_occurrence sample_candidates sample_normalized 2
           (plain_movie "Heat" 3)); reflexivity.
Defined.

(** The first and the third movie of the normalised sample. *)
Lemma normalize_orders_by_rank_witness :
  normalize sample_candidates = Ret sample_normalized /\
  exists s s',
    first_with_title sample_candidates s /\ first_with_title sample_candidates s' /\
    plain_movie "Alien" 1 = <["rank" := VInt (Z.of_nat 0 + 1)]> s /\
    plain_movie "Heat" 3 = <["rank" := VInt (Z.of_nat 2 + 1)]> s' /\
    rank_le s s'.
Proof.
  split; [reflexivity|].
  apply (normalize_orders_by_rank sample_candidates sample_normalized 0 2
           (plain_movie "Alien" 1) (plain_movie "Heat" 3));
    [repeat (constructor; [eexists; reflexivity|]); constructor
    | reflexivity | lia | reflexivity | reflexivity].
Defined.

(** The second "Heat" of the candidates has its title in the result. *)
Lemma normalize_keeps_every_title_witness :
  normalize sample_candidates = Ret sample_normalized /\
  sample_candidates !! 3%nat = Some (plain_movie "Heat" 4) /\
  exists m, m ∈ sample_normalized /\ title_key m = title_key (plain_movie "Heat" 4).
Proof.
  split; [reflexivity|]. split; [reflexivity|].
  apply (normalize_keeps_every_title sample_candidates sample_normalized
           (plain_movie "Heat" 4));
    [reflexivity | simpl; lia
    | apply list_elem_of_lookup_2 with 3%nat; reflexivity
    | eexists; reflexivity].
Defined.

(** A movie without rank before a ranked one. *)
Lemma normalize_raises_on_none_rank_witness :
  rank_key (mk_movie VNone (VStr "Casablanca") VNone VNone VNone) = VNone /\
  normalize unranked_then_ranked = Raise TypeError.
Proof.
  split; [reflexivity|].
  apply (normalize_raises_on_none_rank unranked_then_ranked).
  - repeat (constructor; [eexists; reflexivity|]); constructor.
  - apply NoDup_cons. split; [|apply NoDup_singleton].
    intros H. apply list_elem_of_singleton in H. discriminate H.
  - constructor; [left; reflexivity|].
    constructor; [right; eexists; reflexivity | constructor].
  - simpl; lia.
  - left. reflexivity.
Defined.

(** A row numbered 1 with the rating 9.2 gets the rank 9. *)
Lemma classic_row_rank_from_rating_cell_witness :
  search_digits "9.2" = Some "9" /\
  exists m,
    extract_from_classic_row keep_href any_float (numbered_row "1." "9.2" "Heat")
      = Ret (Some m) /\
    m !! "rank" = Some (VInt (int_of_digits 0 "9")).
Proof.
  split; [reflexivity|].
  eapply (classic_row_rank_from_rating_cell keep_href any_float
            (numbered_row "1." "9.2" "Heat"));
    [reflexivity | reflexivity | reflexivity | discriminate
    | reflexivity | reflexivity].
Defined.

(** Five rows of which three are films, and [urljoin] refuses the address
    of the second film. *)
Lemma any_row_fallback_ranks_dense_witness :
  is_movie_row <$> find_all plain_rows_page (ByTag "tr")
    = [false; true; true; false; true] /\
  extract_from_classic_page strict_href any_float plain_rows_page
    = Ret [mk_movie (VInt 1) (VStr "Heat") (VInt 1995) VNone (VStr "/title/tt0113277/");
           mk_movie (VInt 2) (VStr "Ran") (VInt 1985) VNone (VStr "/title/tt0089881/")] /\
  exists out,
    extract_from_classic_page strict_href any_float plain_rows_page = Ret out /\
    length out
      = length (filter (fun row =>
                          is_movie_row row
                          && href_accepted strict_href (find row (ByTitleHref "a")) = true)
                  (find_all plain_rows_page (ByTag "tr"))) /\
    forall i m, out !! i = Some m -> m !! "rank" = Some (VInt (Z.of_nat i + 1)).
Proof.
  split; [reflexivity|]. split; [reflexivity|].
  apply (any_row_fallback_ranks_dense strict_href any_float plain_rows_page);
    reflexivity.
Defined.

(** Exactly 50 titles. *)
Lemma embedded_json_needs_more_than_50_witness :
  length (findall (match_quoted "titleText") fifty_titles) = 50%nat /\
  extract_from_embedded_json any_float fifty_titles = Ret [].
Proof.
  split; [reflexivity|].
  apply (embedded_json_needs_more_than_50 any_float fifty_titles).
  repeat (constructor; [apply Nat.leb_le; reflexivity|]); constructor.
Defined.

(** An undecodable script followed by a script tag without text, on a page
    with 60 cards. *)
Lemma page_parser_script_without_text_witness :
  length (select textless_script_page "tr[data-testid]") = 60%nat /\
  extract_movies_from_any_page keep_href any_float (fun _ => None) textless_script_page
    = Ret [].
Proof.
  split; [reflexivity|].
  apply (page_parser_script_without_text keep_href any_float (fun _ => None)
           textless_script_page (leaf EmptyString) [script_tag "ld"] []);
    [reflexivity
    | constructor; [eexists; split; reflexivity | constructor]
    | reflexivity].
Defined.

(** A block whose second entry gives its [item] as a link. *)
Lemma page_parser_item_not_object_witness :
  entries_with_link_item !! 1%nat = Some (VDict (<["item" := VStr "/title/tt0113277/"]> ∅)) /\
  extract_movies_from_any_page keep_href any_float
    (fun _ => Some (item_list entries_with_link_item)) (ld_page "ld")
    = Ret [].
Proof.
  split; [reflexivity|].
  apply (page_parser_item_not_object keep_href any_float
           (fun _ => Some (item_list entries_with_link_item)) (ld_page "ld")
           (script_tag "ld") [] "ld"
           (<["itemListElement" := VList entries_with_link_item]> ∅)
           (<["item" := VStr "/title/tt0113277/"]> ∅)
           entries_with_link_item (VStr "/title/tt0113277/"));
    [reflexivity | reflexivity | reflexivity | reflexivity
    | apply list_elem_of_lookup_2 with 1%nat; reflexivity
    | reflexivity
    | intros info; discriminate].
Defined.


(** Two failures and an answer to the third request. *)
Lemma get_page_with_retries_three_attempts_witness :
  get_page_with_retries nat flaky_get "/chart/top/" 0%nat
    = (Some (leaf "A film."), 3%nat) /\
  (flaky_get "/chart/top/" 0%nat = (Some (leaf "A film."), 3%nat) \/
   (exists w1, flaky_get "/chart/top/" 0%nat = (None, w1) /\
               flaky_get "/chart/top/" w1 = (Some (leaf "A film."), 3%nat)) \/
   (exists w1 w2, flaky_get "/chart/top/" 0%nat = (None, w1) /\
                  flaky_get "/chart/top/" w1 = (None, w2) /\
                  flaky_get "/chart/top/" w2 = (Some (leaf "A film."), 3%nat))).
Proof.
  split; [reflexivity|].
  apply (get_page_with_retries_three_attempts nat flaky_get "/chart/top/" 0%nat 3%nat
           (Some (leaf "A film."))).
  reflexivity.
Defined.

(** A server that never answers. *)
Lemma details_when_network_down_witness :
  (get_additional_details unit no_answer "/title/tt0113277/" tt).1
    = Ret unknown_details.
Proof.
  apply (details_when_network_down unit no_answer "/title/tt0113277/" tt).
  intros u w0. reflexivity.
Defined.

(** Two answered requests and a third that raises. *)
Lemma try_paginated_discards_on_error_witness :
  extract_from_classic_page keep_href any_float prefixed_card_page
    = Ret [plain_movie "The Godfather" 1] /\
  try_paginated_requests' keep_href any_float nat third_raises 0%nat = (Ret [], 3%nat).
Proof.
  split; [reflexivity|].
  apply (try_paginated_discards_on_error keep_href any_float nat third_raises
           0%nat 1%nat 2%nat 3%nat 200 200 prefixed_card_page prefixed_card_page
           ValueError); reflexivity.
Defined.

(** The 60 movies of [sample_script]. *)
Lemma normalize_returns_on_sweep_and_embedded_witness :
  extract_from_embedded_json any_float sample_script = Ret sample_script_movies /\
  exists out, normalize sample_script_movies = Ret out.
Proof.
  split; [reflexivity|].
  apply (normalize_returns_on_sweep_and_embedded keep_href any_float
           (leaf EmptyString) sample_script sample_script_movies).
  right. reflexivity.
Defined.

(** No request succeeds. *)
Lemma scrape_top250_network_down_witness :
  (scrape_top250 unit
     (as_stage unit (try_classic_imdb_page' keep_href any_float unit no_answer))
     (as_stage unit (try_paginated_requests' keep_href any_float unit all_raise))
     (as_stage unit
        (try_mobile_and_alternative_endpoints' keep_href any_float (fun _ => None)
           unit no_answer all_raise (fun _ => 200)))
     tt).1 = Ret [].
Proof.
  apply (scrape_top250_network_down keep_href any_float (fun _ => None) unit
           no_answer all_raise (fun _ => 200) tt).
  - intros u w0. reflexivity.
  - intros q w0. exists ValueError. reflexivity.
Defined.

(** One request is counted, although [flaky_get] would answer the third. *)
Lemma try_mobile_stops_when_mobile_request_raises_witness :
  try_mobile_and_alternative_endpoints' keep_href any_float (fun _ => None) nat
    flaky_get count_and_raise (fun _ => 200) 0%nat = (Ret [], 1%nat).
Proof.
  apply (try_mobile_stops_when_mobile_request_raises keep_href any_float
           (fun _ => None) nat flaky_get count_and_raise (fun _ => 200)
           0%nat 1%nat ValueError).
  reflexivity.
Defined.

(** Three cards of which the second is dropped: the ranks are 1 and 3. *)
Lemma modern_cards_ranked_by_position_witness :
  extract_from_classic_page strict_href any_float three_cards_page
    = Ret [mk_movie (VInt 1) (VStr "Heat") VNone VNone (VStr "/title/tt0113277/");
           mk_movie (VInt 3) (VStr "Ran") VNone VNone (VStr "/title/tt0089881/")] /\
  exists out,
    extract_from_classic_page strict_href any_float three_cards_page = Ret out /\
    (.!! "rank") <$> out
      = (fun ic : Z * element => Some (VInt ic.1)) <$>
          filter (fun ic : Z * element =>
                    href_accepted strict_href
                      (find ic.2 (ByClass "a" "ipc-title-link-wrapper")) = true)
            (enumerate 1
               (find_all three_cards_page (ByClass "li" "ipc-metadata-list-summary-item"))).
Proof.
  split; [reflexivity|].
  apply (modern_cards_ranked_by_position strict_href any_float three_cards_page);
    [reflexivity | constructor; reflexivity].
Defined.
